(** * preload-webpack-plugin: the [PreloadPlugin] class of [src/index.js]

    A shallow embedding of [PreloadPlugin.addLinks] and [PreloadPlugin.apply]
    and the properties of the link pipeline: file selection, attribute
    resolution, head injection, and the error handling at the hook boundary.

    Conventions.
    - A JavaScript string is a [string]; a character stands for one code
      unit, and the order of [String.compare] is the code-unit order that
      [Array.prototype.sort] uses when it is called without a comparator.
    - [undefined] is [None] wherever a value may be absent.
    - Code that can throw returns a sum with [Error]; [addLinks] and the
      handlers run in the monad [M], which also records the calls made to
      the modules of [./lib] and to the host's callback. *)

From Stdlib Require Import List String Ascii Bool Arith Lia NArith.
From Stdlib Require Import Sorting.Sorted Sorting.Permutation.
Import ListNotations.
Local Open Scope string_scope.
Local Open Scope list_scope.

(** ** Strings *)

(** The double-quote character, as a one-character string. *)
Definition dq : string := String (ascii_of_nat 34) EmptyString.

(** [s1 <= s2] in the order of [Array.prototype.sort]'s default comparison. *)
Definition str_le (s1 s2 : string) : Prop := String.leb s1 s2 = true.

(** ** Errors and the call-recording error monad *)

(** What a [throw] carries: [assert]'s [AssertionError] with its message, a
    [TypeError] of the language itself, or whatever a module of [./lib] or
    the host throws. *)
Inductive Error : Type :=
| AssertionError (message : string)
| TypeError (message : string)
| ThrownError (message : string).

(** ** Data model *)

(** A webpack chunk, as far as [addLinks] reads it: [chunk.files]. *)
Record Chunk : Type := mkChunk {
  chunk_id : string;
  files : list string
}.

(** A value that may stand where a string is expected
    ([compilation.outputOptions.publicPath]). *)
Inductive JSValue : Type :=
| VUndefined
| VNull
| VBool (b : bool)
| VString (s : string).

(** ToBoolean. *)
Definition truthy (v : JSValue) : bool :=
  match v with
  | VUndefined => false
  | VNull => false
  | VBool b => b
  | VString s => negb (s =? "")
  end.

(** ToString, as a template literal applies it. *)
Definition toString (v : JSValue) : string :=
  match v with
  | VUndefined => "undefined"
  | VNull => "null"
  | VBool true => "true"
  | VBool false => "false"
  | VString s => s
  end.

(** [a || b]. *)
Definition js_or (a b : JSValue) : JSValue := if truthy a then a else b.

(** A hook object of the host, known by its name only. *)
Inductive Hook : Type := HookObject (hook_name : string).

(** The compilation: [chunks], [outputOptions.publicPath], [errors] and
    [hooks.htmlWebpackPluginAfterHtmlProcessing]. *)
Record Compilation : Type := mkCompilation {
  chunks : list Chunk;
  outputOptions_publicPath : JSValue;
  errors : list string;
  hooks_htmlWebpackPluginAfterHtmlProcessing : option Hook
}.

(** [htmlPluginData]: [html], [plugin.options.filename] and [assets.chunks]
    (an object from chunk names to chunks); [assets] may be [undefined]. *)
Record HtmlPluginData : Type := mkHtmlPluginData {
  html : string;
  plugin_options_filename : string;
  assets : option (list (string * Chunk))
}.

Definition set_html (d : HtmlPluginData) (h : string) : HtmlPluginData :=
  {| html := h;
     plugin_options_filename := plugin_options_filename d;
     assets := assets d |}.

(** A [RegExp] object.  [object_id] tells one object from another: the
    same object may stand in several places of the pattern lists.
    [matchFrom input i] is the end of the match the pattern finds when the
    search of [input] starts at index [i] (for a sticky pattern, the match
    at [i] itself), if it finds one.  [lastIndex] is the property of that
    name as it is when [addLinks] is entered. *)
Record RegExp : Type := mkRegExp {
  object_id : nat;
  global : bool;
  sticky : bool;
  matchFrom : string -> nat -> option nat;
  lastIndex : nat
}.

(** The pattern matches somewhere in [input]. *)
Definition matches (regex : RegExp) (input : string) : bool :=
  match matchFrom regex input 0 with
  | Some _ => true
  | None => false
  end.

(** The [lastIndex] properties written so far, newest first, by object. *)
Definition LastIndexes : Type := list (nat * nat).

Definition lastIndexOf (written : LastIndexes) (regex : RegExp) : nat :=
  match find (fun entry => Nat.eqb (fst entry) (object_id regex)) written with
  | Some entry => snd entry
  | None => lastIndex regex
  end.

Definition setLastIndex (written : LastIndexes) (regex : RegExp) (i : nat)
    : LastIndexes :=
  (object_id regex, i) :: written.

(** [regex.test(input)].  Without the [g] and [y] flags the search starts
    at 0 and [lastIndex] is left alone.  With one of them the search
    starts at [lastIndex], which is then set to the end of the match, or
    to 0 when there is none or when it lay beyond the input. *)
Definition test (regex : RegExp) (input : string) (written : LastIndexes)
    : bool * LastIndexes :=
  if global regex || sticky regex then
    let i := lastIndexOf written regex in
    if (String.length input <? i)%nat then (false, setLastIndex written regex 0)
    else
      match matchFrom regex input i with
      | Some e => (true, setLastIndex written regex e)
      | None => (false, setLastIndex written regex 0)
      end
  else (matches regex input, written).

(** [options.as]: absent, a fixed value, or a function of the href. *)
Inductive OptionsAs : Type :=
| AsUndefined
| AsString (value : string)
| AsFunction (f : string -> option string).

(** What [HtmlWebpackPlugin.getHooks(compilation)] returns. *)
Record HtmlHooks : Type := mkHtmlHooks { beforeEmit : option Hook }.

(** The [html-webpack-plugin] module that may be passed in the options. *)
Record HtmlWebpackPluginModule : Type := mkHtmlWebpackPluginModule {
  getHooks : Compilation -> Error + HtmlHooks
}.

(** [this.options]. *)
Record Options : Type := mkOptions {
  rel : string;
  include : string;
  fileWhitelist : option (list RegExp);
  fileBlacklist : option (list RegExp);
  optionsAs : OptionsAs;
  excludeHtmlNames : list string;
  HtmlWebpackPlugin : option HtmlWebpackPluginModule
}.

(** The [attributes] object: its properties in insertion order; the value
    [None] is [undefined]. *)
Definition Attributes : Type := list (string * option string).

Definition get_attribute (k : string) (a : Attributes) : option (option string) :=
  match find (fun kv => fst kv =? k) a with
  | Some kv => Some (snd kv)
  | None => None
  end.

Definition has_attribute (k : string) (a : Attributes) : bool :=
  existsb (fun kv => fst kv =? k) a.

(** [attributes.k = v]: an existing property keeps its place. *)
Fixpoint set_attribute (k : string) (v : option string) (a : Attributes) : Attributes :=
  match a with
  | [] => [(k, v)]
  | (k', v') :: rest =>
      if k' =? k then (k, v) :: rest else (k', v') :: set_attribute k v rest
  end.

(** What the host's callback is called with: [callback(error)] or
    [callback(null, htmlPluginData)]. *)
Inductive CallbackArgs : Type :=
| CallbackError (error : Error)
| CallbackResult (htmlPluginData : HtmlPluginData).

(** The calls [index.js] makes out of itself. *)
Inductive Event : Type :=
| CallExtractChunks (optionsInclude : string)
| CallDoesChunkBelongToHTML (webpackVersion : string) (chunk : Chunk)
| CallDetermineAsValue (href : string)
| CallCreateHTMLElementString (attributes : Attributes) (elementName : string)
| CallInsertLinksIntoHead (links : list string) (html : string)
| CallCallback (args : CallbackArgs).

(** A computation: the calls it made, then the error it threw or its value. *)
Definition M (A : Type) : Type := (list Event * (Error + A))%type.

Definition ret {A} (a : A) : M A := ([], inr a).

Definition throw {A} (e : Error) : M A := ([], inl e).

Definition bind {A B} (m : M A) (f : A -> M B) : M B :=
  match m with
  | (log, inl e) => (log, inl e)
  | (log, inr a) => let (log', r) := f a in (log ++ log', r)
  end.

(** A call out of [index.js], recorded, with what it returned or threw. *)
Definition call {A} (ev : Event) (r : Error + A) : M A := ([ev], r).

(** [try { m } catch (error) { handler error }]. *)
Definition try_catch {A} (m : M A) (handler : Error -> M A) : M A :=
  match m with
  | (log, inl e) => let (log', r) := handler e in (log ++ log', r)
  | (log, inr a) => (log, inr a)
  end.

Notation "x <- m ;; k" := (bind m (fun x => k))
  (at level 61, m at next level, right associativity).
Notation "m ;;; k" := (bind m (fun _ => k))
  (at level 61, right associativity).

(** [assert(value, message)]. *)
Definition assert (value : bool) (message : string) : M unit :=
  if value then ret tt else throw (AssertionError message).

(** [array.map] with a callback that may throw, in index order. *)
Fixpoint mapM {A B} (f : A -> M B) (l : list A) : M (list B) :=
  match l with
  | [] => ret []
  | x :: rest =>
      y <- f x ;;
      ys <- mapM f rest ;;
      ret (y :: ys)
  end.

(** [array.filter] with a callback that may throw, in index order. *)
Fixpoint filterM {A} (p : A -> M bool) (l : list A) : M (list A) :=
  match l with
  | [] => ret []
  | x :: rest =>
      keep <- p x ;;
      kept <- filterM p rest ;;
      ret (if keep then x :: kept else kept)
  end.

(** ** Objects used as lookup tables *)

(** An object whose properties hold values of type [V]: its own enumerable
    properties in the order of [Object.keys], and the properties it inherits
    along its prototype chain. *)
Record JSObject (V : Type) : Type := mkJSObject {
  own : list (string * V);
  inherited : list (string * V)
}.
Arguments mkJSObject {V} _ _.
Arguments own {V} _.
Arguments inherited {V} _.

(** [Object.keys(o)]. *)
Definition Object_keys {V} (o : JSObject V) : list string := map fst (own o).

Definition assoc {V} (k : string) (l : list (string * V)) : option V :=
  match find (fun kv => fst kv =? k) l with
  | Some kv => Some (snd kv)
  | None => None
  end.

(** [o[k]]: an own property shadows an inherited one. *)
Definition get_property {V} (k : string) (o : JSObject V) : option V :=
  match assoc k (own o) with
  | Some v => Some v
  | None => assoc k (inherited o)
  end.

(** [k in o]: true of own and of inherited properties. *)
Definition js_in {V} (k : string) (o : JSObject V) : bool :=
  match get_property k o with
  | Some _ => true
  | None => false
  end.

(** ** The File Selector: lines 59-75 of [addLinks] *)

(** [htmlChunks.reduce((accumulated, chunk) => accumulated.concat(chunk.files), [])]. *)
Definition allFiles (htmlChunks : list Chunk) : list string :=
  fold_left (fun accumulated chunk => accumulated ++ files chunk) htmlChunks [].

(** [Set.prototype.add]: a value already in the set is not added again, a
    new one goes last in iteration order. *)
Definition Set_add (s : list string) (x : string) : list string :=
  if existsb (String.eqb x) s then s else s ++ [x].

(** [[...new Set(values)]]. *)
Definition spread_new_Set (values : list string) : list string :=
  fold_left Set_add values [].

Definition uniqueFiles (htmlChunks : list Chunk) : list string :=
  spread_new_Set (allFiles htmlChunks).

(** [regexes.some(regex => regex.test(file))]: the patterns are tested in
    order up to the first that answers true. *)
Fixpoint some_test (regexes : list RegExp) (file : string) (written : LastIndexes)
    : bool * LastIndexes :=
  match regexes with
  | [] => (false, written)
  | regex :: rest =>
      let (found, written') := test regex file written in
      if found then (true, written') else some_test rest file written'
  end.

(** [regexes.every(regex => !regex.test(file))]: the patterns are tested in
    order up to the first that answers true. *)
Fixpoint every_not_test (regexes : list RegExp) (file : string) (written : LastIndexes)
    : bool * LastIndexes :=
  match regexes with
  | [] => (true, written)
  | regex :: rest =>
      let (found, written') := test regex file written in
      if negb found then every_not_test rest file written' else (false, written')
  end.

(** [!fileWhitelist || fileWhitelist.some(regex => regex.test(file))]. *)
Definition passesWhitelist (this : Options) (file : string) (written : LastIndexes)
    : bool * LastIndexes :=
  match fileWhitelist this with
  | None => (true, written)
  | Some regexes => some_test regexes file written
  end.

(** [!fileBlacklist || fileBlacklist.every(regex => !regex.test(file))]. *)
Definition passesBlacklist (this : Options) (file : string) (written : LastIndexes)
    : bool * LastIndexes :=
  match fileBlacklist this with
  | None => (true, written)
  | Some regexes => every_not_test regexes file written
  end.

(** [array.filter] with a callback that writes [lastIndex] properties, in
    index order. *)
Fixpoint filterS {A} (p : A -> LastIndexes -> bool * LastIndexes) (l : list A)
    (written : LastIndexes) : list A * LastIndexes :=
  match l with
  | [] => ([], written)
  | x :: rest =>
      let (keep, written') := p x written in
      let (kept, written'') := filterS p rest written' in
      (if keep then x :: kept else kept, written'')
  end.

(** Lines 63-73: the first [filter] runs over all the files, then the
    second over those it kept; the result goes with the [lastIndex]
    properties as the two leave them. *)
Definition filterFiles (this : Options) (htmlChunks : list Chunk)
    : list string * LastIndexes :=
  let (allowed, written) := filterS (passesWhitelist this) (uniqueFiles htmlChunks) [] in
  filterS (passesBlacklist this) allowed written.

Definition filteredFiles (this : Options) (htmlChunks : list Chunk) : list string :=
  fst (filterFiles this htmlChunks).

(** [array.sort()] on strings.  The order is total and antisymmetric, so the
    result does not depend on the engine's algorithm ([sort_unique] below);
    insertion sort stands for it. *)
Fixpoint sort_insert (x : string) (l : list string) : list string :=
  match l with
  | [] => [x]
  | y :: rest => if String.leb x y then x :: y :: rest else y :: sort_insert x rest
  end.

Definition Array_sort (l : list string) : list string :=
  fold_right sort_insert [] l.

Definition sortedFilteredFiles (this : Options) (htmlChunks : list Chunk) : list string :=
  Array_sort (filteredFiles this htmlChunks).

(** ** The modules of [./lib] *)

(** One entry of [doesChunkBelongToHTML]: called with
    [{chunk, compilation, htmlAssetsChunks}], it throws or returns a value of
    which [filter] reads the truthiness. *)
Definition Variant : Type := Chunk -> Compilation -> list Chunk -> Error + bool.

(** The five modules [index.js] requires from [./lib] and calls in
    [addLinks].  Each may throw. *)
Record Lib : Type := mkLib {
  extractChunks : Compilation -> string -> Error + list Chunk;
  doesChunkBelongToHTML : JSObject Variant;
  determineAsValue : string -> OptionsAs -> Error + option string;
  createHTMLElementString : Attributes -> string -> Error + string;
  insertLinksIntoHead : list string -> string -> Error + string
}.

(** ** [addLinks] *)

(** The message of the assertion on line 34; the array of keys is rendered
    by [Array.prototype.toString], that is joined with commas. *)
Definition invalidVersionMessage (L : Lib) : string :=
  "An invalid webpackVersion was supplied. Supported values: "
  ++ String.concat "," (Object_keys (doesChunkBelongToHTML L)) ++ ".".

(** Line 39: [options.excludeHtmlNames.includes(filename)]. *)
Definition isExcluded (this : Options) (htmlPluginData : HtmlPluginData) : bool :=
  existsb (String.eqb (plugin_options_filename htmlPluginData)) (excludeHtmlNames this).

(** Lines 52-56, the callback of [extractedChunks.filter]: the member is
    looked up, then the argument object is built (reading
    [htmlPluginData.assets.chunks]), then the member is called. *)
Definition chunkBelongs (L : Lib) (webpackVersion : string) (compilation : Compilation)
    (htmlPluginData : HtmlPluginData) (chunk : Chunk) : M bool :=
  let member := get_property webpackVersion (doesChunkBelongToHTML L) in
  htmlAssetsChunks <-
    match assets htmlPluginData with
    | None => throw (TypeError "Cannot read property 'chunks' of undefined")
    | Some assets_chunks => ret (map snd assets_chunks)
    end ;;
  match member with
  | None => throw (TypeError "doesChunkBelongToHTML[webpackVersion] is not a function")
  | Some variant =>
      call (CallDoesChunkBelongToHTML webpackVersion chunk)
           (variant chunk compilation htmlAssetsChunks)
  end.

(** Lines 43-56. *)
Definition htmlChunksOf (L : Lib) (this : Options) (webpackVersion : string)
    (compilation : Compilation) (htmlPluginData : HtmlPluginData) : M (list Chunk) :=
  extractedChunks <-
    call (CallExtractChunks (include this)) (extractChunks L compilation (include this)) ;;
  if include this =? "allAssets"
  then ret extractedChunks
  else filterM (chunkBelongs L webpackVersion compilation htmlPluginData) extractedChunks.

(** Line 78: [compilation.outputOptions.publicPath || '']. *)
Definition publicPathOf (compilation : Compilation) : JSValue :=
  js_or (outputOptions_publicPath compilation) (VString "").

(** Line 80: the template literal of [publicPath] and [file]. *)
Definition hrefOf (publicPath : JSValue) (file : string) : string :=
  toString publicPath ++ file.

(** Lines 82-101: the [attributes] object of one file. *)
Definition attributesOf (L : Lib) (this : Options) (publicPath : JSValue) (file : string)
    : M Attributes :=
  let href := hrefOf publicPath file in
  let attributes := [("href", Some href); ("rel", Some (rel this))] in
  if rel this =? "preload" then
    asValue <- call (CallDetermineAsValue href) (determineAsValue L href (optionsAs this)) ;;
    let attributes := set_attribute "as" asValue attributes in
    match asValue with
    | Some resourceType =>
        if resourceType =? "font"
        then ret (set_attribute "crossorigin" (Some "anonymous") attributes)
        else ret attributes
    | None => ret attributes
    end
  else ret attributes.

(** Lines 80-107: the body of the loop over the sorted files. *)
Definition linkElementString (L : Lib) (this : Options) (publicPath : JSValue) (file : string)
    : M string :=
  attributes <- attributesOf L this publicPath file ;;
  call (CallCreateHTMLElementString attributes "link")
       (createHTMLElementString L attributes "link").

(** Lines 77-108: the [links] array. *)
Definition linksOf (L : Lib) (this : Options) (publicPath : JSValue) (sortedFiles : list string)
    : M (list string) :=
  mapM (linkElementString L this publicPath) sortedFiles.

(** [PreloadPlugin.prototype.addLinks], lines 32-116. *)
Definition addLinks (L : Lib) (this : Options) (webpackVersion : string)
    (compilation : Compilation) (htmlPluginData : HtmlPluginData) : M HtmlPluginData :=
  assert (js_in webpackVersion (doesChunkBelongToHTML L)) (invalidVersionMessage L) ;;;
  if isExcluded this htmlPluginData then ret htmlPluginData
  else
    htmlChunks <- htmlChunksOf L this webpackVersion compilation htmlPluginData ;;
    let sortedFiles := sortedFilteredFiles this htmlChunks in
    let publicPath := publicPathOf compilation in
    links <- linksOf L this publicPath sortedFiles ;;
    newHtml <- call (CallInsertLinksIntoHead links (html htmlPluginData))
                    (insertLinksIntoHead L links (html htmlPluginData)) ;;
    ret (set_html htmlPluginData newHtml).

(** ** [apply] *)

(** [this.constructor.name]. *)
Definition pluginName : string := "PreloadPlugin".

(** The host's [callback]: it returns or throws. *)
Definition Callback : Type := CallbackArgs -> Error + unit.

(** Lines 156-165 and 173-179: the function registered for the document
    event, the same in both branches but for the version it passes on. *)
Definition hookHandler (L : Lib) (this : Options) (webpackVersion : string)
    (compilation : Compilation) (htmlPluginData : HtmlPluginData) (callback : Callback)
    : M unit :=
  try_catch
    (result <- addLinks L this webpackVersion compilation htmlPluginData ;;
     call (CallCallback (CallbackResult result)) (callback (CallbackResult result)))
    (fun error =>
       call (CallCallback (CallbackError error)) (callback (CallbackError error))).

Definition Handler : Type := HtmlPluginData -> Callback -> M unit.

(** What a compilation listener does to the compilation it is given. *)
Inductive CompilationEffect : Type :=
| TapAsync (hook : Hook) (name : string) (handler : Handler)
| CompilationPlugin (event : string) (handler : Handler)
| ErrorPushed (compilation' : Compilation).

(** Lines 146-149. *)
Definition orderingError : string :=
  "Unable to tap into the HtmlWebpackPlugin's callbacks. Make sure to list "
  ++ pluginName ++ " at some point after HtmlWebpackPlugin in webpack's plugins array.".

(** [compilation.errors.push(error)]. *)
Definition push_error (compilation : Compilation) (error : string) : Compilation :=
  {| chunks := chunks compilation;
     outputOptions_publicPath := outputOptions_publicPath compilation;
     errors := errors compilation ++ [error];
     hooks_htmlWebpackPluginAfterHtmlProcessing :=
       hooks_htmlWebpackPluginAfterHtmlProcessing compilation |}.

(** Lines 125-142: the hook to tap, [undefined] when there is none. *)
Definition findHook (this : Options) (compilation : Compilation) : Error + option Hook :=
  match hooks_htmlWebpackPluginAfterHtmlProcessing compilation with
  | Some hook => inr (Some hook)
  | None =>
      match HtmlWebpackPlugin this with
      | None => inl (TypeError "Cannot read property 'getHooks' of undefined")
      | Some module =>
          match getHooks module compilation with
          | inl e => inl e
          | inr hooks => inr (beforeEmit hooks)
          end
      end
  end.

(** Lines 123-167: the listener tapped on [compiler.hooks.compilation]. *)
Definition compilationTap (L : Lib) (this : Options) (compilation : Compilation)
    : Error + CompilationEffect :=
  match findHook this compilation with
  | inl e => inl e
  | inr None => inr (ErrorPushed (push_error compilation orderingError))
  | inr (Some hook) => inr (TapAsync hook pluginName (hookHandler L this "v4" compilation))
  end.

(** Lines 172-180: the listener of the [compilation] event before webpack 4. *)
Definition compilationPlugin (L : Lib) (this : Options) (compilation : Compilation)
    : Error + CompilationEffect :=
  inr (CompilationPlugin "html-webpack-plugin-before-html-processing"
         (hookHandler L this "v3" compilation)).

Definition Listener : Type := Compilation -> Error + CompilationEffect.

(** The compiler, as far as [apply] reads it: ['hooks' in compiler]. *)
Record Compiler : Type := mkCompiler { hooks_in_compiler : bool }.

(** What [apply] registers on the compiler. *)
Inductive Registration : Type :=
| HooksCompilationTap (name : string) (listener : Listener)
| CompilerPlugin (event : string) (listener : Listener).

(** [PreloadPlugin.prototype.apply], lines 118-182. *)
Definition apply (L : Lib) (this : Options) (compiler : Compiler) : Registration :=
  if hooks_in_compiler compiler
  then HooksCompilationTap pluginName (compilationTap L this)
  else CompilerPlugin "compilation" (compilationPlugin L this).

(** ** The modules of [./lib], from their contracts *)

(** Modelled from the spec: [lib/extract-chunks] is missing.  Its contract
    (Chunk Extractor) returns every chunk of the compilation in either
    selection mode and has no error condition. *)
Definition spec_extractChunks (compilation : Compilation) (optionsInclude : string)
    : Error + list Chunk :=
  inr (chunks compilation).

(** The part of [href] before its query string or hash. *)
Fixpoint stripQueryAndHash (href : string) : string :=
  match href with
  | EmptyString => EmptyString
  | String c rest =>
      if (c =? "?")%char || (c =? "#")%char then EmptyString
      else String c (stripQueryAndHash rest)
  end.

(** The text after the last dot of the last path segment, if there is one. *)
Fixpoint extensionFrom (current : option string) (path : string) : option string :=
  match path with
  | EmptyString => current
  | String c rest =>
      if (c =? "/")%char then extensionFrom None rest
      else if (c =? ".")%char then extensionFrom (Some EmptyString) rest
      else extensionFrom (option_map (fun e => (e ++ String c EmptyString)%string) current) rest
  end.

Definition extensionOf (href : string) : option string :=
  extensionFrom None (stripQueryAndHash href).

(** Modelled from the spec: the extension-to-type table of
    [lib/determine-as-value] is missing and the spec does not enumerate it;
    these are the entries its scenarios fix. *)
Definition extensionTable : list (string * string) :=
  [("js", "script"); ("css", "style"); ("woff2", "font")].

(** Modelled from the spec: [lib/determine-as-value] is missing.  Its
    contract (Attribute Resolver): an override wins, else the extension of
    the URL, without query string or hash, is looked up in the table, else
    there is no resource type. *)
Definition spec_determineAsValue (href : string) (optionsAs : OptionsAs)
    : Error + option string :=
  match optionsAs with
  | AsString value => inr (Some value)
  | AsFunction f => inr (f href)
  | AsUndefined =>
      match extensionOf href with
      | Some extension => inr (assoc extension extensionTable)
      | None => inr None
      end
  end.

(** One attribute as it is written in the tag; an [undefined] value is
    left out. *)
Definition attributeString (kv : string * option string) : string :=
  match snd kv with
  | Some value => " " ++ fst kv ++ "=" ++ dq ++ value ++ dq
  | None => ""
  end.

(** Modelled from the spec: [lib/create-html-element-string] is missing.
    Its contract (Tag Serializer): the attributes in insertion order, each
    with its literal string value, no escaping. *)
Definition spec_createHTMLElementString (attributes : Attributes) (elementName : string)
    : Error + string :=
  inr ("<" ++ elementName ++ String.concat "" (map attributeString attributes) ++ ">")%string.

(** ASCII lower case. *)
Definition lowerChar (c : ascii) : ascii :=
  let n := nat_of_ascii c in
  if (65 <=? n)%nat && (n <=? 90)%nat then ascii_of_nat (n + 32) else c.

Fixpoint lowerCase (s : string) : string :=
  match s with
  | EmptyString => EmptyString
  | String c rest => String (lowerChar c) (lowerCase rest)
  end.

(** [tag] is a closing head tag in some mix of cases. *)
Definition isClosingHead (tag : string) : bool := lowerCase tag =? "</head>".

(** [s] begins with [needle], case-insensitively; [needle] is in lower case. *)
Fixpoint startsWithCI (needle s : string) : bool :=
  match needle with
  | EmptyString => true
  | String n needle' =>
      match s with
      | EmptyString => false
      | String c s' => (lowerChar c =? n)%char && startsWithCI needle' s'
      end
  end.

(** [block] put before the first closing head tag of [html], if any. *)
Fixpoint insertBeforeClosingHead (block html : string) : string :=
  match html with
  | EmptyString => EmptyString
  | String c rest =>
      if startsWithCI "</head>" html then block ++ html
      else String c (insertBeforeClosingHead block rest)
  end.

(** Modelled from the spec: [lib/insert-links-into-head] is missing.  Its
    contract (Head Injector): the tags, as one block, go immediately before
    the first closing head tag, matched case-insensitively; without such a
    tag the document is returned as it is, and nothing is thrown. *)
Definition spec_insertLinksIntoHead (links : list string) (html : string)
    : Error + string :=
  inr (insertBeforeClosingHead (String.concat "" links) html).

(** What an object literal inherits from [Object.prototype], each member by
    what it does when called as [o[k]({chunk, compilation, htmlAssetsChunks})]
    on an object [o] that has no own property named [toString] or
    [[object Object]]: [Object], [toString], [toLocaleString] and [valueOf]
    return an object or a non-empty string; [hasOwnProperty],
    [isPrototypeOf], [propertyIsEnumerable] return false and the
    [__lookup*__] pair [undefined]; the [__define*__] pair throws for want
    of a function argument; [__proto__] is not a function. *)
Definition Object_prototype : list (string * Variant) :=
  [ ("constructor", fun _ _ _ => inr true);
    ("__defineGetter__", fun _ _ _ => inl (TypeError "Object.prototype.__defineGetter__: Expecting function"));
    ("__defineSetter__", fun _ _ _ => inl (TypeError "Object.prototype.__defineSetter__: Expecting function"));
    ("hasOwnProperty", fun _ _ _ => inr false);
    ("__lookupGetter__", fun _ _ _ => inr false);
    ("__lookupSetter__", fun _ _ _ => inr false);
    ("isPrototypeOf", fun _ _ _ => inr false);
    ("propertyIsEnumerable", fun _ _ _ => inr false);
    ("toString", fun _ _ _ => inr true);
    ("valueOf", fun _ _ _ => inr true);
    ("__proto__", fun _ _ _ => inl (TypeError "doesChunkBelongToHTML[webpackVersion] is not a function"));
    ("toLocaleString", fun _ _ _ => inr true) ].

(** Modelled from the spec: [lib/does-chunk-belong-to-html] is missing.  It
    is an object with one entry per supported version, [v3] and [v4] (the
    two [apply] passes on); what each entry decides is left open. *)
Definition spec_doesChunkBelongToHTML (v3 v4 : Variant) : JSObject Variant :=
  {| own := [("v3", v3); ("v4", v4)]; inherited := Object_prototype |}.

(** The library with every module as its contract describes it. *)
Definition spec_lib (v3 v4 : Variant) : Lib :=
  {| extractChunks := spec_extractChunks;
     doesChunkBelongToHTML := spec_doesChunkBelongToHTML v3 v4;
     determineAsValue := spec_determineAsValue;
     createHTMLElementString := spec_createHTMLElementString;
     insertLinksIntoHead := spec_insertLinksIntoHead |}.

(** ** Sample inputs *)

(** An entry that finds every chunk in the document. *)
Definition everyChunk : Variant := fun _ _ _ => inr true.

Definition sampleLib : Lib := spec_lib everyChunk everyChunk.

(** Options with [rel] and [include] as given, and nothing else set. *)
Definition plainOptions (rel include : string) : Options :=
  {| rel := rel; include := include;
     fileWhitelist := None; fileBlacklist := None;
     optionsAs := AsUndefined; excludeHtmlNames := [];
     HtmlWebpackPlugin := None |}.

Definition appChunk : Chunk := {| chunk_id := "app"; files := ["app.js"; "app.css"] |}.

Definition distCompilation : Compilation :=
  {| chunks := [appChunk];
     outputOptions_publicPath := VString "/dist/";
     errors := [];
     hooks_htmlWebpackPluginAfterHtmlProcessing := None |}.

Definition indexPage : HtmlPluginData :=
  {| html := "<html><head><title>t</title></head><body></body></html>";
     plugin_options_filename := "index.html";
     assets := Some [("app", appChunk)] |}.

Definition appJsTag : string :=
  "<link href=" ++ dq ++ "/dist/app.js" ++ dq ++ " rel=" ++ dq ++ "preload" ++ dq
  ++ " as=" ++ dq ++ "script" ++ dq ++ ">".

Definition appCssTag : string :=
  "<link href=" ++ dq ++ "/dist/app.css" ++ dq ++ " rel=" ++ dq ++ "preload" ++ dq
  ++ " as=" ++ dq ++ "style" ++ dq ++ ">".

Definition indexPageWithLinks : HtmlPluginData :=
  set_html indexPage
    ("<html><head><title>t</title>" ++ appCssTag ++ appJsTag
     ++ "</head><body></body></html>").

(** Options that exclude [index.html]. *)
Definition excludingOptions : Options :=
  {| rel := "preload"; include := "asyncChunks";
     fileWhitelist := None; fileBlacklist := None;
     optionsAs := AsUndefined; excludeHtmlNames := ["index.html"];
     HtmlWebpackPlugin := None |}.

(** A compilation without a configured public path. *)
Definition bareCompilation : Compilation :=
  {| chunks := [appChunk];
     outputOptions_publicPath := VUndefined;
     errors := [];
     hooks_htmlWebpackPluginAfterHtmlProcessing := None |}.

(** A payload whose [assets] is [undefined]. *)
Definition pageWithoutAssets : HtmlPluginData :=
  {| html := "<html><head></head></html>";
     plugin_options_filename := "index.html";
     assets := None |}.

Definition hooksCompiler : Compiler := {| hooks_in_compiler := true |}.

Definition legacyCompiler : Compiler := {| hooks_in_compiler := false |}.

(** An [html-webpack-plugin] module whose hooks hold no [beforeEmit]. *)
Definition moduleWithoutBeforeEmit : HtmlWebpackPluginModule :=
  {| getHooks := fun _ => inr {| beforeEmit := None |} |}.

(** ** What the properties speak of *)

(** The attribute sets handed to [createHTMLElementString] in a run. *)
Definition attributesBuilt (log : list Event) : list Attributes :=
  flat_map (fun ev =>
              match ev with
              | CallCreateHTMLElementString attributes _ => [attributes]
              | _ => []
              end) log.

(** The invariant of a Link Descriptor under the configured [rel]. *)
Definition descriptorInvariant (rel : string) (a : Attributes) : Prop :=
  ((has_attribute "as" a = true \/ has_attribute "crossorigin" a = true) ->
   rel = "preload") /\
  (has_attribute "crossorigin" a = true <-> get_attribute "as" a = Some (Some "font")) /\
  (has_attribute "crossorigin" a = true ->
   get_attribute "crossorigin" a = Some (Some "anonymous")) /\
  (rel <> "preload" ->
   has_attribute "as" a = false /\ has_attribute "crossorigin" a = false).

(** No pattern of the list, if there is a list, has the [g] or the [y]
    flag. *)
Definition flagless (regexes : option (list RegExp)) : bool :=
  match regexes with
  | None => true
  | Some patterns => forallb (fun regex => negb (global regex || sticky regex)) patterns
  end.

(** The allow-list is absent or one of its patterns matches [file]. *)
Definition allowedByWhitelist (this : Options) (file : string) : bool :=
  match fileWhitelist this with
  | None => true
  | Some regexes => existsb (fun regex => matches regex file) regexes
  end.

(** The deny-list is absent or none of its patterns matches [file]. *)
Definition clearOfBlacklist (this : Options) (file : string) : bool :=
  match fileBlacklist this with
  | None => true
  | Some regexes => forallb (fun regex => negb (matches regex file)) regexes
  end.

(** [html] holds a closing head tag, in some mix of cases. *)
Definition containsClosingHead (html : string) : Prop :=
  exists pre tag post, html = (pre ++ tag ++ post)%string /\ isClosingHead tag = true.

(** The version [apply] has its handler pass to [addLinks]. *)
Definition versionPassed (compiler : Compiler) : string :=
  if hooks_in_compiler compiler then "v4" else "v3".

(** The handler that ends up registered for the document event when the
    listener [apply] registers is run on [compilation], if any. *)
Definition registeredHandler (L : Lib) (this : Options) (compiler : Compiler)
    (compilation : Compilation) : option Handler :=
  let listener :=
    match apply L this compiler with
    | HooksCompilationTap _ listener => listener
    | CompilerPlugin _ listener => listener
    end in
  match listener compilation with
  | inr (TapAsync _ _ handler) => Some handler
  | inr (CompilationPlugin _ handler) => Some handler
  | inr (ErrorPushed _) => None
  | inl _ => None
  end.

(** ** The constructor *)

(** [o.k = v] on a plain object, given as its own enumerable properties in
    order: an existing property keeps its place, a new one goes last. *)
Fixpoint set_property {V} (k : string) (v : V) (o : list (string * V))
    : list (string * V) :=
  match o with
  | [] => [(k, v)]
  | (k', v') :: rest =>
      if k' =? k then (k, v) :: rest else (k', v') :: set_property k v rest
  end.

(** One source of [Object.assign]: its properties are set on the target
    in order; an [undefined] source is skipped. *)
Definition assign_source {V} (target : list (string * V))
    (source : option (list (string * V))) : list (string * V) :=
  match source with
  | None => target
  | Some properties =>
      fold_left (fun t kv => set_property (fst kv) (snd kv) t) properties target
  end.

(** [Object.assign(target, ...sources)]. *)
Definition Object_assign {V} (target : list (string * V))
    (sources : list (option (list (string * V)))) : list (string * V) :=
  fold_left assign_source sources target.

(** Line 29, [this.options] as the constructor leaves it:
    [Object.assign({}, defaultOptions, options)]; [options] is [None] when
    the constructor is called without an argument.  The record [Options] is
    what [addLinks] and [apply] read of this object. *)
Definition constructor {V} (defaultOptions : list (string * V))
    (options : option (list (string * V))) : list (string * V) :=
  Object_assign [] [Some defaultOptions; options].

(** ** More sample inputs *)

Definition sampleDefaults : list (string * JSValue) :=
  [("rel", VString "preload"); ("include", VString "asyncChunks")].

Definition sampleUserOptions : list (string * JSValue) :=
  [("include", VUndefined); ("fileBlacklist", VNull)].

(** A compilation without chunks. *)
Definition emptyCompilation : Compilation :=
  {| chunks := [];
     outputOptions_publicPath := VString "/dist/";
     errors := [];
     hooks_htmlWebpackPluginAfterHtmlProcessing := None |}.

(** Two chunks that hold, between them and with repeats, the files of
    [appChunk] in another order. *)
Definition stylesChunk : Chunk :=
  {| chunk_id := "styles"; files := ["app.css"; "app.css"] |}.

Definition scriptsChunk : Chunk :=
  {| chunk_id := "scripts"; files := ["app.js"; "app.css"; "app.js"] |}.

(** Options with an allow-list that holds no pattern. *)
Definition emptyWhitelistOptions : Options :=
  {| rel := "preload"; include := "asyncChunks";
     fileWhitelist := Some []; fileBlacklist := None;
     optionsAs := AsUndefined; excludeHtmlNames := [];
     HtmlWebpackPlugin := None |}.

(** An entry that accepts the chunk named app and no other. *)
Definition onlyApp : Variant := fun chunk _ _ => inr (chunk_id chunk =? "app").

(** A compilation with two chunks. *)
Definition twoChunkCompilation : Compilation :=
  {| chunks := [stylesChunk; appChunk];
     outputOptions_publicPath := VString "/dist/";
     errors := [];
     hooks_htmlWebpackPluginAfterHtmlProcessing := None |}.

(** A callback that throws when it is handed a result and returns when it
    is handed an error. *)
Definition throwingOnResult : Callback :=
  fun args =>
    match args with
    | CallbackResult _ => inl (ThrownError "callback failed")
    | CallbackError _ => inr tt
    end.

(** A callback that always returns. *)
Definition quietCallback : Callback := fun _ => inr tt.

(** A pattern without flags that matches the style sheet of [appChunk]
    and nothing else. *)
Definition appCssPattern : RegExp :=
  {| object_id := 0; global := false; sticky := false;
     matchFrom := fun input i =>
       if (i =? 0)%nat && (input =? "app.css") then Some 7 else None;
     lastIndex := 0 |}.

(** [input] ends in [suffix]. *)
Definition endsWith (suffix input : string) : bool :=
  (String.length suffix <=? String.length input)%nat
  && (substring (String.length input - String.length suffix)
                (String.length suffix) input =? suffix).

(** The pattern of a dot, js and the end of the input, with the [g] flag:
    the one match there can be ends at the end of the input and begins
    three characters before. *)
Definition jsSuffixGlobal : RegExp :=
  {| object_id := 1; global := true; sticky := false;
     matchFrom := fun input i =>
       if endsWith ".js" input && (i + 3 <=? String.length input)%nat
       then Some (String.length input) else None;
     lastIndex := 0 |}.

(** Options with that pattern alone on the allow-list. *)
Definition jsWhitelistOptions : Options :=
  {| rel := "preload"; include := "asyncChunks";
     fileWhitelist := Some [jsSuffixGlobal]; fileBlacklist := None;
     optionsAs := AsUndefined; excludeHtmlNames := [];
     HtmlWebpackPlugin := None |}.

Definition abcChunk : Chunk :=
  {| chunk_id := "abc"; files := ["a.js"; "b.js"; "c.js"] |}.

(** Options with the flagless pattern alone on the allow-list. *)
Definition cssWhitelistOptions : Options :=
  {| rel := "preload"; include := "asyncChunks";
     fileWhitelist := Some [appCssPattern]; fileBlacklist := None;
     optionsAs := AsUndefined; excludeHtmlNames := [];
     HtmlWebpackPlugin := None |}.

(** Options with the same pattern on the allow-list and on the deny-list. *)
Definition allowedAndDeniedOptions : Options :=
  {| rel := "preload"; include := "asyncChunks";
     fileWhitelist := Some [appCssPattern]; fileBlacklist := Some [appCssPattern];
     optionsAs := AsUndefined; excludeHtmlNames := [];
     HtmlWebpackPlugin := None |}.

(** * Properties *)

(** ** The order on strings *)

Lemma ascii_compare_refl (a : ascii) : Ascii.compare a a = Eq.
Proof. unfold Ascii.compare. apply N.compare_refl. Qed.

Lemma string_leb_refl (s : string) : String.leb s s = true.
Proof.
  unfold String.leb.
  assert (H : String.compare s s = Eq).
  { induction s as [|a s IH]; simpl; [reflexivity|].
    now rewrite ascii_compare_refl. }
  now rewrite H.
Qed.

Lemma string_compare_le_trans (s t u : string) :
  String.compare s t <> Gt -> String.compare t u <> Gt -> String.compare s u <> Gt.
Proof.
  revert t u.
  induction s as [|a s IH]; intros [|b t] [|c u]; simpl; try congruence.
  unfold Ascii.compare.
  destruct (N.compare_spec (N_of_ascii a) (N_of_ascii b)) as [Hab|Hab|Hab];
    destruct (N.compare_spec (N_of_ascii b) (N_of_ascii c)) as [Hbc|Hbc|Hbc];
    destruct (N.compare_spec (N_of_ascii a) (N_of_ascii c)) as [Hac|Hac|Hac];
    try congruence; try lia.
  apply IH.
Qed.

Lemma str_le_trans (s t u : string) : str_le s t -> str_le t u -> str_le s u.
Proof.
  unfold str_le, String.leb. intros Hst Htu.
  pose proof (string_compare_le_trans s t u) as H.
  destruct (String.compare s t); try discriminate;
    destruct (String.compare t u); try discriminate;
    destruct (String.compare s u); try reflexivity;
    exfalso; apply H; congruence.
Qed.

Lemma str_le_total (s t : string) : str_le s t \/ str_le t s.
Proof. apply String.leb_total. Qed.

Lemma str_le_antisym (s t : string) : str_le s t -> str_le t s -> s = t.
Proof. apply String.leb_antisym. Qed.

Lemma str_le_neq_ltb (s t : string) : str_le s t -> s <> t -> String.ltb s t = true.
Proof.
  unfold str_le, String.leb, String.ltb. intros Hle Hne.
  destruct (String.compare s t) eqn:Hc; try discriminate; [|reflexivity].
  apply String.compare_eq_iff in Hc. contradiction.
Qed.

(** ** [Array.prototype.sort] *)

Lemma sort_insert_perm (x : string) (l : list string) :
  Permutation (sort_insert x l) (x :: l).
Proof.
  induction l as [|y l IH]; simpl; [reflexivity|].
  destruct (String.leb x y); [reflexivity|].
  rewrite IH. apply perm_swap.
Qed.

Lemma Array_sort_perm (l : list string) : Permutation (Array_sort l) l.
Proof.
  induction l as [|x l IH]; simpl; [reflexivity|].
  rewrite sort_insert_perm. now constructor.
Qed.

Lemma sort_insert_sorted (x : string) (l : list string) :
  StronglySorted str_le l -> StronglySorted str_le (sort_insert x l).
Proof.
  induction l as [|y l IH]; intros Hs; simpl.
  - repeat constructor.
  - inversion Hs as [|? ? Hl Hy]; subst.
    destruct (String.leb x y) eqn:Hxy.
    + constructor; [assumption|].
      constructor; [exact Hxy|].
      eapply Forall_impl; [|exact Hy].
      intros z Hz. eapply str_le_trans; eauto.
    + constructor; [now apply IH|].
      assert (Hyx : str_le y x).
      { destruct (str_le_total x y) as [H|H]; [unfold str_le in H; congruence|exact H]. }
      eapply Permutation_Forall; [symmetry; apply sort_insert_perm|].
      constructor; assumption.
Qed.

Lemma Array_sort_sorted (l : list string) : StronglySorted str_le (Array_sort l).
Proof.
  induction l as [|x l IH]; simpl; [constructor|].
  now apply sort_insert_sorted.
Qed.

Lemma sorted_perm_unique (l1 l2 : list string) :
  StronglySorted str_le l1 -> StronglySorted str_le l2 -> Permutation l1 l2 -> l1 = l2.
Proof.
  revert l2.
  induction l1 as [|a l1 IH]; intros l2 H1 H2 Hp.
  - apply Permutation_nil in Hp. now subst.
  - destruct l2 as [|b l2].
    + symmetry in Hp. apply Permutation_nil in Hp. discriminate.
    + inversion H1 as [|? ? Hs1 Ha]; subst.
      inversion H2 as [|? ? Hs2 Hb]; subst.
      assert (Hab : a = b).
      { assert (Hin_a : In a (b :: l2))
          by (eapply Permutation_in; [exact Hp|now left]).
        assert (Hin_b : In b (a :: l1))
          by (eapply Permutation_in; [symmetry; exact Hp|now left]).
        destruct Hin_a as [->|Hin_a]; [reflexivity|].
        destruct Hin_b as [->|Hin_b]; [reflexivity|].
        rewrite Forall_forall in Ha, Hb.
        apply str_le_antisym; auto. }
      subst b. f_equal.
      apply IH; try assumption.
      eapply Permutation_cons_inv; exact Hp.
Qed.

(** Any engine's [sort] returns a sorted rearrangement of its input; there
    is only one, the list [Array_sort] computes. *)
Lemma sort_unique (l l' : list string) :
  Permutation l l' -> StronglySorted str_le l' -> l' = Array_sort l.
Proof.
  intros Hp Hs.
  apply sorted_perm_unique; [assumption|apply Array_sort_sorted|].
  rewrite Array_sort_perm. now symmetry.
Qed.

(** ** Flattening and deduplication *)

Lemma allFiles_from_in (htmlChunks : list Chunk) (accumulated : list string) (file : string) :
  In file (fold_left (fun accumulated chunk => accumulated ++ files chunk)
             htmlChunks accumulated) <->
  In file accumulated \/ exists chunk, In chunk htmlChunks /\ In file (files chunk).
Proof.
  revert accumulated.
  induction htmlChunks as [|c cs IH]; intros accumulated; simpl.
  - split; [auto|]. intros [H|[c [[] _]]]. exact H.
  - rewrite IH, in_app_iff. split.
    + intros [[H|H]|[c' [Hc' Hf]]]; eauto 6.
    + intros [H|[c' [[<-|Hc'] Hf]]]; eauto 6.
Qed.

Lemma allFiles_in (htmlChunks : list Chunk) (file : string) :
  In file (allFiles htmlChunks) <->
  exists chunk, In chunk htmlChunks /\ In file (files chunk).
Proof.
  unfold allFiles. rewrite allFiles_from_in. simpl. tauto.
Qed.

Lemma Set_add_in (s : list string) (x y : string) :
  In y (Set_add s x) <-> In y s \/ y = x.
Proof.
  unfold Set_add.
  destruct (existsb (String.eqb x) s) eqn:He.
  - apply existsb_exists in He. destruct He as [z [Hz Hxz]].
    apply String.eqb_eq in Hxz. subst z.
    split; [auto|]. intros [H| ->]; assumption.
  - rewrite in_app_iff. simpl. split; intros [H|H]; auto.
    + destruct H as [H|[]]; auto.
Qed.

Lemma Set_add_NoDup (s : list string) (x : string) : NoDup s -> NoDup (Set_add s x).
Proof.
  intros Hs. unfold Set_add.
  destruct (existsb (String.eqb x) s) eqn:He; [assumption|].
  apply NoDup_app; [assumption|repeat constructor; intros []|].
  intros y Hy [Hxy|[]]. subst y.
  assert (Ht : existsb (String.eqb x) s = true).
  { apply existsb_exists. exists x. split; [assumption|apply String.eqb_refl]. }
  congruence.
Qed.

Lemma Set_fold_in (values s : list string) (y : string) :
  In y (fold_left Set_add values s) <-> In y s \/ In y values.
Proof.
  revert s. induction values as [|x values IH]; intros s; simpl.
  - tauto.
  - rewrite IH, Set_add_in. intuition (subst; auto).
Qed.

Lemma Set_fold_NoDup (values s : list string) :
  NoDup s -> NoDup (fold_left Set_add values s).
Proof.
  revert s. induction values as [|x values IH]; intros s Hs; simpl; [assumption|].
  apply IH. now apply Set_add_NoDup.
Qed.

Lemma uniqueFiles_NoDup (htmlChunks : list Chunk) : NoDup (uniqueFiles htmlChunks).
Proof. apply Set_fold_NoDup. constructor. Qed.

Lemma uniqueFiles_in (htmlChunks : list Chunk) (file : string) :
  In file (uniqueFiles htmlChunks) <->
  exists chunk, In chunk htmlChunks /\ In file (files chunk).
Proof.
  unfold uniqueFiles, spread_new_Set.
  rewrite Set_fold_in, allFiles_in. simpl. tauto.
Qed.

Lemma filterS_in {A} (p : A -> LastIndexes -> bool * LastIndexes) (l : list A)
    (written : LastIndexes) (x : A) :
  In x (fst (filterS p l written)) ->
  In x l /\ exists w, fst (p x w) = true.
Proof.
  revert written. induction l as [|y l IH]; intros written; simpl; [intros []|].
  destruct (p y written) as [keep written'] eqn:Hp.
  specialize (IH written').
  destruct (filterS p l written') as [kept written'']. simpl in *.
  destruct keep; simpl.
  - intros [<-|H].
    + split; [now left|]. exists written. now rewrite Hp.
    + destruct (IH H). auto.
  - intros H. destruct (IH H). auto.
Qed.

Lemma filterS_NoDup {A} (p : A -> LastIndexes -> bool * LastIndexes) (l : list A)
    (written : LastIndexes) :
  NoDup l -> NoDup (fst (filterS p l written)).
Proof.
  intros Hnd. revert written.
  induction Hnd as [|y l Hnotin Hnd IH]; intros written; simpl; [constructor|].
  destruct (p y written) as [keep written'].
  pose proof (filterS_in p l written' y) as Hin.
  specialize (IH written').
  destruct (filterS p l written') as [kept written'']. simpl in *.
  destruct keep; [|assumption].
  constructor; [|assumption]. intros H. apply Hin in H. tauto.
Qed.

Lemma filterS_pure {A} (p : A -> LastIndexes -> bool * LastIndexes) (q : A -> bool)
    (l : list A) (written : LastIndexes) :
  (forall x w, p x w = (q x, w)) -> filterS p l written = (filter q l, written).
Proof.
  intros Hp. induction l as [|y l IH]; simpl; [reflexivity|].
  rewrite Hp, IH. reflexivity.
Qed.

Lemma filteredFiles_NoDup (this : Options) (htmlChunks : list Chunk) :
  NoDup (filteredFiles this htmlChunks).
Proof.
  unfold filteredFiles, filterFiles.
  pose proof (filterS_NoDup (passesWhitelist this) (uniqueFiles htmlChunks) []
                (uniqueFiles_NoDup htmlChunks)) as Hallowed.
  destruct (filterS (passesWhitelist this) (uniqueFiles htmlChunks) [])
    as [allowed written].
  now apply filterS_NoDup.
Qed.

Lemma filteredFiles_in (this : Options) (htmlChunks : list Chunk) (file : string) :
  In file (filteredFiles this htmlChunks) ->
  In file (uniqueFiles htmlChunks) /\
  (exists w, fst (passesWhitelist this file w) = true) /\
  (exists w, fst (passesBlacklist this file w) = true).
Proof.
  unfold filteredFiles, filterFiles.
  pose proof (filterS_in (passesWhitelist this) (uniqueFiles htmlChunks) [] file)
    as Hallowed.
  destruct (filterS (passesWhitelist this) (uniqueFiles htmlChunks) [])
    as [allowed written].
  intros H. apply filterS_in in H. destruct H as [Hin Hb].
  destruct (Hallowed Hin) as [Hu Hw]. auto.
Qed.

Lemma sorted_NoDup_strict (l : list string) :
  StronglySorted str_le l -> NoDup l ->
  StronglySorted (fun s t => String.ltb s t = true) l.
Proof.
  induction 1 as [|a l Hs IH Ha]; intros Hnd; [constructor|].
  inversion Hnd as [|? ? Hnotin Hnd']; subst.
  constructor; [now apply IH|].
  rewrite Forall_forall in *. intros x Hx.
  apply str_le_neq_ltb; [now apply Ha|].
  intros ->. contradiction.
Qed.

(** C1. For every list of chunks, the files selected by lines 59-75 of
    [addLinks] (flattened, deduplicated, filtered, sorted) hold no path
    twice and are in ascending lexicographic order, hence strictly
    ascending. *)
Theorem file_selector_sorted_without_duplicates (this : Options) (htmlChunks : list Chunk) :
  NoDup (sortedFilteredFiles this htmlChunks) /\
  StronglySorted str_le (sortedFilteredFiles this htmlChunks) /\
  StronglySorted (fun s t => String.ltb s t = true) (sortedFilteredFiles this htmlChunks).
Proof.
  assert (Hnd : NoDup (sortedFilteredFiles this htmlChunks)).
  { unfold sortedFilteredFiles.
    eapply Permutation_NoDup; [symmetry; apply Array_sort_perm|].
    apply filteredFiles_NoDup. }
  assert (Hs : StronglySorted str_le (sortedFilteredFiles this htmlChunks))
    by apply Array_sort_sorted.
  repeat split; try assumption.
  now apply sorted_NoDup_strict.
Qed.

(** ** The allow-list and the deny-list *)

Lemma test_flagless (regex : RegExp) (file : string) (written : LastIndexes) :
  negb (global regex || sticky regex) = true ->
  test regex file written = (matches regex file, written).
Proof.
  intros H. unfold test. apply negb_true_iff in H. now rewrite H.
Qed.

Lemma some_test_flagless (regexes : list RegExp) (file : string) (written : LastIndexes) :
  forallb (fun regex => negb (global regex || sticky regex)) regexes = true ->
  some_test regexes file written
  = (existsb (fun regex => matches regex file) regexes, written).
Proof.
  induction regexes as [|regex rest IH]; simpl; [reflexivity|].
  intros H. apply andb_true_iff in H. destruct H as [Hr Hrest].
  rewrite (test_flagless _ _ _ Hr).
  destruct (matches regex file); [reflexivity|]. now apply IH.
Qed.

Lemma every_not_test_flagless (regexes : list RegExp) (file : string)
    (written : LastIndexes) :
  forallb (fun regex => negb (global regex || sticky regex)) regexes = true ->
  every_not_test regexes file written
  = (forallb (fun regex => negb (matches regex file)) regexes, written).
Proof.
  induction regexes as [|regex rest IH]; simpl; [reflexivity|].
  intros H. apply andb_true_iff in H. destruct H as [Hr Hrest].
  rewrite (test_flagless _ _ _ Hr).
  destruct (matches regex file); [reflexivity|]. now apply IH.
Qed.

Lemma passesWhitelist_flagless (this : Options) (file : string) (written : LastIndexes) :
  flagless (fileWhitelist this) = true ->
  passesWhitelist this file written = (allowedByWhitelist this file, written).
Proof.
  unfold flagless, passesWhitelist, allowedByWhitelist.
  destruct (fileWhitelist this); [apply some_test_flagless|reflexivity].
Qed.

Lemma passesBlacklist_flagless (this : Options) (file : string) (written : LastIndexes) :
  flagless (fileBlacklist this) = true ->
  passesBlacklist this file written = (clearOfBlacklist this file, written).
Proof.
  unfold flagless, passesBlacklist, clearOfBlacklist.
  destruct (fileBlacklist this); [apply every_not_test_flagless|reflexivity].
Qed.

(** With flagless patterns the two filters are plain filters. *)
Lemma filteredFiles_flagless (this : Options) (htmlChunks : list Chunk) :
  flagless (fileWhitelist this) = true ->
  flagless (fileBlacklist this) = true ->
  filteredFiles this htmlChunks
  = filter (clearOfBlacklist this)
      (filter (allowedByWhitelist this) (uniqueFiles htmlChunks)).
Proof.
  intros Hw Hb. unfold filteredFiles, filterFiles.
  rewrite (filterS_pure _ (allowedByWhitelist this))
    by (intros x w; now apply passesWhitelist_flagless).
  rewrite (filterS_pure _ (clearOfBlacklist this))
    by (intros x w; now apply passesBlacklist_flagless).
  reflexivity.
Qed.

Lemma selected_in_iff_flagless (this : Options) (htmlChunks : list Chunk) (file : string) :
  flagless (fileWhitelist this) = true ->
  flagless (fileBlacklist this) = true ->
  (In file (sortedFilteredFiles this htmlChunks) <->
   (exists chunk, In chunk htmlChunks /\ In file (files chunk)) /\
   allowedByWhitelist this file = true /\ clearOfBlacklist this file = true).
Proof.
  intros Hw Hb. unfold sortedFilteredFiles.
  rewrite (filteredFiles_flagless _ _ Hw Hb), <- uniqueFiles_in. split.
  - intros H. apply (Permutation_in _ (Array_sort_perm _)) in H.
    apply filter_In in H. destruct H as [H Hc].
    apply filter_In in H. tauto.
  - intros [Hu [Ha Hc]].
    apply (Permutation_in _ (Permutation_sym (Array_sort_perm _))).
    apply filter_In. split; [|assumption]. apply filter_In. tauto.
Qed.

Lemma allowedByWhitelist_iff (this : Options) (file : string) :
  allowedByWhitelist this file = true <->
  fileWhitelist this = None \/
  exists regexes regex,
    fileWhitelist this = Some regexes /\ In regex regexes /\ matches regex file = true.
Proof.
  unfold allowedByWhitelist.
  destruct (fileWhitelist this) as [regexes|].
  - rewrite existsb_exists. split.
    + intros [regex [Hin Ht]]. right. eauto.
    + intros [H|[rs [regex [Heq [Hin Ht]]]]]; [discriminate|].
      injection Heq as <-. eauto.
  - split; auto.
Qed.

Lemma clearOfBlacklist_iff (this : Options) (file : string) :
  clearOfBlacklist this file = true <->
  fileBlacklist this = None \/
  exists regexes,
    fileBlacklist this = Some regexes /\
    forall regex, In regex regexes -> matches regex file = false.
Proof.
  unfold clearOfBlacklist.
  destruct (fileBlacklist this) as [regexes|].
  - rewrite forallb_forall. split.
    + intros H. right. exists regexes. split; [reflexivity|].
      intros regex Hin. apply negb_true_iff. now apply H.
    + intros [H|[rs [Heq H]]]; [discriminate|].
      injection Heq as <-. intros regex Hin. apply negb_true_iff. now apply H.
  - split; auto.
Qed.

(** C2 as stated fails.  The allow-list holds one pattern, with the [g]
    flag, that matches every file ending in .js; of the files a.js, b.js
    and c.js of the one chunk, b.js is tested with the [lastIndex] that
    the match on a.js left and is dropped, though the pattern matches it. *)
Lemma global_pattern_drops_matching_file :
  ~ (In "b.js" (sortedFilteredFiles jsWhitelistOptions [abcChunk]) <->
     (exists chunk, In chunk [abcChunk] /\ In "b.js" (files chunk)) /\
     (fileWhitelist jsWhitelistOptions = None \/
      exists regexes regex,
        fileWhitelist jsWhitelistOptions = Some regexes /\ In regex regexes /\
        matches regex "b.js" = true) /\
     (fileBlacklist jsWhitelistOptions = None \/
      exists regexes,
        fileBlacklist jsWhitelistOptions = Some regexes /\
        forall regex, In regex regexes -> matches regex "b.js" = false)).
Proof.
  intros [_ H].
  assert (Hsel : sortedFilteredFiles jsWhitelistOptions [abcChunk] = ["a.js"; "c.js"])
    by reflexivity.
  rewrite Hsel in H.
  assert (Hin : In "b.js" ["a.js"; "c.js"]).
  { apply H. split; [|split].
    - exists abcChunk. simpl. auto.
    - right. exists [jsSuffixGlobal], jsSuffixGlobal. simpl. auto.
    - now left. }
  simpl in Hin. destruct Hin as [Hin|[Hin|[]]]; discriminate.
Qed.

(** C2, amended.  When no pattern of the two lists has the [g] or the [y]
    flag, a file of the chunks is among the selected files exactly when
    the allow-list is absent or one of its patterns matches the file, and
    the deny-list is absent or none of its patterns matches the file. *)
Theorem file_survives_filtering_iff (this : Options) (htmlChunks : list Chunk) (file : string) :
  flagless (fileWhitelist this) = true ->
  flagless (fileBlacklist this) = true ->
  (In file (sortedFilteredFiles this htmlChunks) <->
   (exists chunk, In chunk htmlChunks /\ In file (files chunk)) /\
   (fileWhitelist this = None \/
    exists regexes regex,
      fileWhitelist this = Some regexes /\ In regex regexes /\
      matches regex file = true) /\
   (fileBlacklist this = None \/
    exists regexes,
      fileBlacklist this = Some regexes /\
      forall regex, In regex regexes -> matches regex file = false)).
Proof.
  intros Hw Hb.
  rewrite <- allowedByWhitelist_iff, <- clearOfBlacklist_iff.
  now apply selected_in_iff_flagless.
Qed.

Lemma file_survives_filtering_iff_witness :
  In "app.css" (sortedFilteredFiles cssWhitelistOptions [appChunk]) <->
  (exists chunk, In chunk [appChunk] /\ In "app.css" (files chunk)) /\
  (fileWhitelist cssWhitelistOptions = None \/
   exists regexes regex,
     fileWhitelist cssWhitelistOptions = Some regexes /\ In regex regexes /\
     matches regex "app.css" = true) /\
  (fileBlacklist cssWhitelistOptions = None \/
   exists regexes,
     fileBlacklist cssWhitelistOptions = Some regexes /\
     forall regex, In regex regexes -> matches regex "app.css" = false).
Proof.
  apply (file_survives_filtering_iff cssWhitelistOptions [appChunk] "app.css");
    reflexivity.
Defined.

(** ** The call log *)

Lemma bind_log_in {A B} (m : M A) (f : A -> M B) (ev : Event) :
  In ev (fst (bind m f)) ->
  In ev (fst m) \/ exists a, snd m = inr a /\ In ev (fst (f a)).
Proof.
  destruct m as [log [e|a]]; simpl; [auto|].
  destruct (f a) as [log' r] eqn:Hf. simpl.
  rewrite in_app_iff. intros [H|H]; [auto|].
  right. exists a. rewrite Hf. auto.
Qed.

Lemma bind_inr {A B} (m : M A) (f : A -> M B) (b : B) :
  snd (bind m f) = inr b -> exists a, snd m = inr a /\ snd (f a) = inr b.
Proof.
  destruct m as [log [e|a]]; simpl; [discriminate|].
  destruct (f a) as [log' r] eqn:Hf. simpl. intros ->.
  exists a. rewrite Hf. auto.
Qed.

Lemma bind_inl_left {A B} (m : M A) (f : A -> M B) (log : list Event) (e : Error) :
  m = (log, inl e) -> bind m f = (log, inl e).
Proof. intros ->. reflexivity. Qed.

Lemma mapM_log_in {A B} (f : A -> M B) (l : list A) (ev : Event) :
  In ev (fst (mapM f l)) -> exists x, In x l /\ In ev (fst (f x)).
Proof.
  induction l as [|x l IH]; simpl; [intros []|].
  intros H. apply bind_log_in in H. destruct H as [H|[y [_ H]]].
  - exists x. auto.
  - apply bind_log_in in H. destruct H as [H|[ys [_ []]]].
    destruct (IH H) as [x' [Hin Hev]]. exists x'. auto.
Qed.

Lemma filterM_log_in {A} (p : A -> M bool) (l : list A) (ev : Event) :
  In ev (fst (filterM p l)) -> exists x, In x l /\ In ev (fst (p x)).
Proof.
  induction l as [|x l IH]; simpl; [intros []|].
  intros H. apply bind_log_in in H. destruct H as [H|[y [_ H]]].
  - exists x. auto.
  - apply bind_log_in in H. destruct H as [H|[ys [_ []]]].
    destruct (IH H) as [x' [Hin Hev]]. exists x'. auto.
Qed.

Lemma attributesBuilt_in (log : list Event) (a : Attributes) :
  In a (attributesBuilt log) <->
  exists name, In (CallCreateHTMLElementString a name) log.
Proof.
  unfold attributesBuilt. rewrite in_flat_map. split.
  - intros [ev [Hin Ha]].
    destruct ev; simpl in Ha; try contradiction.
    destruct Ha as [<-|[]]. eauto.
  - intros [name Hin]. eexists. split; [exact Hin|]. now left.
Qed.

(** ** The attribute sets of a run *)

(** The two shapes an attribute set takes. *)
Lemma attributesOf_shape (L : Lib) (this : Options) (publicPath : JSValue)
    (file : string) (a : Attributes) :
  snd (attributesOf L this publicPath file) = inr a ->
  (rel this <> "preload" /\
   a = [("href", Some (hrefOf publicPath file)); ("rel", Some (rel this))]) \/
  (rel this = "preload" /\
   exists asValue,
     determineAsValue L (hrefOf publicPath file) (optionsAs this) = inr asValue /\
     ((asValue = Some "font" /\
       a = [("href", Some (hrefOf publicPath file)); ("rel", Some (rel this));
            ("as", asValue); ("crossorigin", Some "anonymous")]) \/
      (asValue <> Some "font" /\
       a = [("href", Some (hrefOf publicPath file)); ("rel", Some (rel this));
            ("as", asValue)]))).
Proof.
  unfold attributesOf. intros H.
  destruct (String.eqb_spec (rel this) "preload") as [Hrel|Hrel].
  - right. split; [assumption|].
    apply bind_inr in H. destruct H as [asValue [Hd H]].
    simpl in Hd. exists asValue. split; [exact Hd|].
    destruct asValue as [resourceType|].
    + destruct (String.eqb_spec resourceType "font") as [->|Hne];
        simpl in H; injection H as <-.
      * left. auto.
      * right. split; [congruence|reflexivity].
    + simpl in H. injection H as <-. right. split; [discriminate|reflexivity].
  - left. simpl in H. injection H as <-. auto.
Qed.

Lemma attributesOf_invariant (L : Lib) (this : Options) (publicPath : JSValue)
    (file : string) (a : Attributes) :
  snd (attributesOf L this publicPath file) = inr a ->
  descriptorInvariant (rel this) a.
Proof.
  intros H. apply attributesOf_shape in H.
  unfold descriptorInvariant.
  destruct H as [[Hrel ->]|[Hrel [asValue [_ [[-> ->]|[Hne ->]]]]]].
  - cbn. repeat split; try discriminate; intuition discriminate.
  - cbn. repeat split; auto; try contradiction.
  - cbn. repeat split; auto; try discriminate; try contradiction.
    intros H. injection H as H. contradiction.
Qed.

Lemma attributesOf_href (L : Lib) (this : Options) (publicPath : JSValue)
    (file : string) (a : Attributes) :
  snd (attributesOf L this publicPath file) = inr a ->
  get_attribute "href" a = Some (Some (hrefOf publicPath file)).
Proof.
  intros H. apply attributesOf_shape in H.
  destruct H as [[_ ->]|[_ [asValue [_ [[_ ->]|[_ ->]]]]]]; reflexivity.
Qed.

Lemma attributesOf_log (L : Lib) (this : Options) (publicPath : JSValue)
    (file : string) (ev : Event) :
  In ev (fst (attributesOf L this publicPath file)) ->
  ev = CallDetermineAsValue (hrefOf publicPath file).
Proof.
  unfold attributesOf.
  destruct (rel this =? "preload"); [|intros []].
  intros H. apply bind_log_in in H. destruct H as [H|[asValue [_ H]]].
  - simpl in H. destruct H as [<-|[]]. reflexivity.
  - destruct asValue as [resourceType|]; [destruct (resourceType =? "font")|];
      destruct H.
Qed.

Lemma htmlChunksOf_log (L : Lib) (this : Options) (webpackVersion : string)
    (compilation : Compilation) (htmlPluginData : HtmlPluginData)
    (a : Attributes) (name : string) :
  ~ In (CallCreateHTMLElementString a name)
       (fst (htmlChunksOf L this webpackVersion compilation htmlPluginData)).
Proof.
  unfold htmlChunksOf. intros H.
  apply bind_log_in in H. destruct H as [H|[extracted [_ H]]].
  - simpl in H. destruct H as [H|[]]. discriminate.
  - destruct (include this =? "allAssets"); [destruct H|].
    apply filterM_log_in in H. destruct H as [chunk [_ H]].
    unfold chunkBelongs in H.
    apply bind_log_in in H. destruct H as [H|[cs [_ H]]].
    + destruct (assets htmlPluginData); destruct H.
    + destruct (get_property webpackVersion (doesChunkBelongToHTML L)); simpl in H;
        [destruct H as [H|[]]; discriminate|destruct H].
Qed.

(** Every attribute set of a run of [addLinks] is the one lines 82-101
    build for one of the selected files. *)
Lemma addLinks_attributes_built (L : Lib) (this : Options) (webpackVersion : string)
    (compilation : Compilation) (htmlPluginData : HtmlPluginData) (a : Attributes) :
  In a (attributesBuilt
          (fst (addLinks L this webpackVersion compilation htmlPluginData))) ->
  exists htmlChunks file,
    snd (htmlChunksOf L this webpackVersion compilation htmlPluginData) = inr htmlChunks /\
    In file (sortedFilteredFiles this htmlChunks) /\
    snd (attributesOf L this (publicPathOf compilation) file) = inr a.
Proof.
  rewrite attributesBuilt_in. intros [name H].
  unfold addLinks in H.
  apply bind_log_in in H. destruct H as [H|[[] [_ H]]].
  { unfold assert in H. destruct (js_in _ _); destruct H. }
  destruct (isExcluded this htmlPluginData); [destruct H|].
  apply bind_log_in in H. destruct H as [H|[htmlChunks [Hc H]]].
  { exfalso. eapply htmlChunksOf_log; exact H. }
  exists htmlChunks.
  apply bind_log_in in H. destruct H as [H|[links [_ H]]].
  - unfold linksOf in H. apply mapM_log_in in H.
    destruct H as [file [Hin H]]. exists file.
    split; [assumption|]. split; [assumption|].
    unfold linkElementString in H.
    apply bind_log_in in H. destruct H as [H|[attrs [Ha H]]].
    + apply attributesOf_log in H. discriminate.
    + simpl in H. destruct H as [H|[]]. injection H as -> _. exact Ha.
  - exfalso. apply bind_log_in in H. destruct H as [H|[newHtml [_ []]]].
    simpl in H. destruct H as [H|[]]. discriminate.
Qed.

(** C3. Every attribute set [addLinks] builds satisfies the invariant of
    a Link Descriptor: [as] and [crossorigin] only under [rel] being
    exactly preload, [crossorigin] exactly when the resolved [as] is font
    and then with the value anonymous; so under prefetch, or any other
    [rel], neither attribute is there. *)
Theorem link_descriptor_invariant (L : Lib) (this : Options) (webpackVersion : string)
    (compilation : Compilation) (htmlPluginData : HtmlPluginData) :
  Forall (descriptorInvariant (rel this))
         (attributesBuilt
            (fst (addLinks L this webpackVersion compilation htmlPluginData))).
Proof.
  apply Forall_forall. intros a Ha.
  apply addLinks_attributes_built in Ha.
  destruct Ha as [htmlChunks [file [_ [_ Ha]]]].
  eapply attributesOf_invariant; exact Ha.
Qed.

(** C10. When the compilation's public path is absent or otherwise falsy,
    the empty string is the prefix: the href of a file is the bare file
    path, and so is the [href] of every attribute set a run builds, each
    for one of the selected files. *)
Theorem href_is_bare_path_without_public_path (L : Lib) (this : Options)
    (webpackVersion : string) (compilation : Compilation)
    (htmlPluginData : HtmlPluginData) :
  truthy (outputOptions_publicPath compilation) = false ->
  (forall file, hrefOf (publicPathOf compilation) file = file) /\
  (forall a,
     In a (attributesBuilt
             (fst (addLinks L this webpackVersion compilation htmlPluginData))) ->
     exists htmlChunks file,
       snd (htmlChunksOf L this webpackVersion compilation htmlPluginData)
         = inr htmlChunks /\
       In file (sortedFilteredFiles this htmlChunks) /\
       get_attribute "href" a = Some (Some file)).
Proof.
  intros Hfalsy.
  assert (Hhref : forall file, hrefOf (publicPathOf compilation) file = file).
  { intros file. unfold hrefOf, publicPathOf, js_or. rewrite Hfalsy. reflexivity. }
  split; [exact Hhref|].
  intros a Ha. apply addLinks_attributes_built in Ha.
  destruct Ha as [htmlChunks [file [Hc [Hin Ha]]]].
  exists htmlChunks, file. repeat split; try assumption.
  apply attributesOf_href in Ha. now rewrite Hhref in Ha.
Qed.

Lemma href_is_bare_path_without_public_path_witness :
  truthy (outputOptions_publicPath bareCompilation) = false /\
  hrefOf (publicPathOf bareCompilation) "app.js" = "app.js".
Proof.
  split; [reflexivity|].
  apply (href_is_bare_path_without_public_path
           sampleLib (plainOptions "preload" "allAssets") "v4"
           bareCompilation indexPage).
  reflexivity.
Defined.

(** Without the fallback of line 78 the prefix would read "undefined". *)
Example href_of_undefined_without_fallback :
  hrefOf VUndefined "app.js" = "undefinedapp.js".
Proof. reflexivity. Qed.

(** ** The version check *)

(** A version that names no property of the table, own or inherited, fails
    the assertion before anything is called, and the message lists the
    table's keys. *)
Lemma unknown_version_fails_fast (L : Lib) (this : Options) (webpackVersion : string)
    (compilation : Compilation) (htmlPluginData : HtmlPluginData) :
  js_in webpackVersion (doesChunkBelongToHTML L) = false ->
  addLinks L this webpackVersion compilation htmlPluginData =
  ([], inl (AssertionError
              ("An invalid webpackVersion was supplied. Supported values: "
               ++ String.concat "," (Object_keys (doesChunkBelongToHTML L)) ++ "."))).
Proof.
  intros H. unfold addLinks. rewrite H. reflexivity.
Qed.

Lemma assoc_in_keys {V} (k : string) (l : list (string * V)) :
  In k (map fst l) -> exists v, assoc k l = Some v.
Proof.
  unfold assoc. induction l as [|[k' v'] l IH]; simpl; [intros []|].
  intros [->|H].
  - rewrite String.eqb_refl. eauto.
  - destruct (k' =? k); [eauto|]. now apply IH.
Qed.

(** Every key of the table passes the check. *)
Lemma supported_version_passes (L : Lib) (webpackVersion : string) :
  In webpackVersion (Object_keys (doesChunkBelongToHTML L)) ->
  assert (js_in webpackVersion (doesChunkBelongToHTML L)) (invalidVersionMessage L)
  = ([], inr tt).
Proof.
  intros H. apply assoc_in_keys in H. destruct H as [v Hv].
  unfold js_in, get_property. rewrite Hv. reflexivity.
Qed.

(** C5, at the input where the code departs from it.  [toString] is not a
    key of the table of supported versions, yet the [in] of line 33 finds
    it on the prototype: the assertion passes and [addLinks] runs to its
    end, in either selection mode, and returns the page with the links. *)
Theorem inherited_name_passes_version_check (v3 v4 : Variant) :
  Object_keys (doesChunkBelongToHTML (spec_lib v3 v4)) = ["v3"; "v4"] /\
  js_in "toString" (doesChunkBelongToHTML (spec_lib v3 v4)) = true /\
  snd (addLinks (spec_lib v3 v4) (plainOptions "preload" "allAssets") "toString"
         distCompilation indexPage)
  = inr indexPageWithLinks /\
  snd (addLinks (spec_lib v3 v4) (plainOptions "preload" "asyncChunks") "toString"
         distCompilation indexPage)
  = inr indexPageWithLinks.
Proof. repeat split. Qed.

(** C6. When the document's file name is in [excludeHtmlNames], and the
    version passes the check of line 33, [addLinks] returns the payload it
    was given and calls nothing: no chunk is extracted, no attribute
    resolved, no tag built, no markup touched. *)
Theorem excluded_document_returned_unchanged (L : Lib) (this : Options)
    (webpackVersion : string) (compilation : Compilation)
    (htmlPluginData : HtmlPluginData) :
  js_in webpackVersion (doesChunkBelongToHTML L) = true ->
  In (plugin_options_filename htmlPluginData) (excludeHtmlNames this) ->
  addLinks L this webpackVersion compilation htmlPluginData = ([], inr htmlPluginData).
Proof.
  intros Hv Hin. unfold addLinks. rewrite Hv.
  assert (He : isExcluded this htmlPluginData = true).
  { unfold isExcluded. apply existsb_exists.
    exists (plugin_options_filename htmlPluginData).
    split; [assumption|apply String.eqb_refl]. }
  simpl. rewrite He. reflexivity.
Qed.

Lemma excluded_document_returned_unchanged_witness :
  addLinks sampleLib excludingOptions "v4" distCompilation indexPage
  = ([], inr indexPage).
Proof.
  apply (excluded_document_returned_unchanged
           sampleLib excludingOptions "v4" distCompilation indexPage).
  - reflexivity.
  - simpl. left. reflexivity.
Defined.

(** ** The scenario of one chunk with a script and a style sheet *)

Lemma sort_app_js_app_css : Array_sort ["app.js"; "app.css"] = ["app.css"; "app.js"].
Proof. reflexivity. Qed.

(** C7 as stated fails: the tags do not come out with the script first. *)
Lemma script_tag_first_refuted :
  snd (linksOf sampleLib (plainOptions "preload" "allAssets")
         (publicPathOf distCompilation)
         (sortedFilteredFiles (plainOptions "preload" "allAssets") [appChunk]))
  <> inr [appJsTag; appCssTag].
Proof. vm_compute. discriminate. Qed.

(** C7, amended.  One chunk with files app.js and app.css, no allow-list
    or deny-list, no [as] override, [rel] preload and public path /dist/
    give exactly two tags, in the order of the sort of line 75: the style
    sheet's tag, then the script's. *)
Theorem two_tags_in_sorted_order (v3 v4 : Variant) (this : Options)
    (compilation : Compilation) (chunk : Chunk) :
  rel this = "preload" ->
  fileWhitelist this = None ->
  fileBlacklist this = None ->
  optionsAs this = AsUndefined ->
  outputOptions_publicPath compilation = VString "/dist/" ->
  files chunk = ["app.js"; "app.css"] ->
  snd (linksOf (spec_lib v3 v4) this (publicPathOf compilation)
         (sortedFilteredFiles this [chunk]))
  = inr [appCssTag; appJsTag].
Proof.
  intros Hrel Hw Hb Has Hpp Hfiles.
  assert (Hsel : sortedFilteredFiles this [chunk] = ["app.css"; "app.js"]).
  { unfold sortedFilteredFiles.
    rewrite filteredFiles_flagless by (rewrite ?Hw, ?Hb; reflexivity).
    unfold uniqueFiles, allFiles. simpl. rewrite Hfiles.
    assert (Hpw : forall f, allowedByWhitelist this f = true)
      by (intros f; unfold allowedByWhitelist; now rewrite Hw).
    assert (Hpb : forall f, clearOfBlacklist this f = true)
      by (intros f; unfold clearOfBlacklist; now rewrite Hb).
    cbn. rewrite !Hpw. cbn. rewrite !Hpb. reflexivity. }
  rewrite Hsel.
  unfold linksOf, publicPathOf, linkElementString, attributesOf.
  rewrite Hpp. cbn [mapM]. rewrite Hrel, Has. reflexivity.
Qed.

Lemma two_tags_in_sorted_order_witness :
  snd (linksOf sampleLib (plainOptions "preload" "allAssets")
         (publicPathOf distCompilation)
         (sortedFilteredFiles (plainOptions "preload" "allAssets") [appChunk]))
  = inr [appCssTag; appJsTag].
Proof.
  apply (two_tags_in_sorted_order everyChunk everyChunk
           (plainOptions "preload" "allAssets") distCompilation appChunk);
    reflexivity.
Defined.

(** The whole run on the scenario: the calls made and the payload returned. *)
Example addLinks_on_scenario :
  addLinks sampleLib (plainOptions "preload" "asyncChunks") "v4" distCompilation indexPage
  = ([ CallExtractChunks "asyncChunks";
       CallDoesChunkBelongToHTML "v4" appChunk;
       CallDetermineAsValue "/dist/app.css";
       CallCreateHTMLElementString
         [("href", Some "/dist/app.css"); ("rel", Some "preload"); ("as", Some "style")]
         "link";
       CallDetermineAsValue "/dist/app.js";
       CallCreateHTMLElementString
         [("href", Some "/dist/app.js"); ("rel", Some "preload"); ("as", Some "script")]
         "link";
       CallInsertLinksIntoHead [appCssTag; appJsTag] (html indexPage) ],
     inr indexPageWithLinks).
Proof. reflexivity. Qed.

(** ** The Head Injector *)

Lemma startsWithCI_iff (needle s : string) :
  startsWithCI needle s = true <->
  exists tag post, s = (tag ++ post)%string /\ lowerCase tag = needle.
Proof.
  revert s. induction needle as [|n needle IH]; intros s; simpl.
  - split; [|reflexivity]. intros _. exists EmptyString, s. auto.
  - destruct s as [|c s].
    + split; [discriminate|].
      intros [[|c' tag] [post [Hs Hl]]]; simpl in Hs, Hl; congruence.
    + rewrite andb_true_iff, IH, Ascii.eqb_eq. split.
      * intros [Hc [tag [post [-> Hl]]]].
        exists (String c tag), post. simpl. now rewrite Hc, Hl.
      * intros [[|c' tag] [post [Hs Hl]]]; simpl in Hl; [discriminate|].
        simpl in Hs. injection Hs as -> ->. injection Hl as Hc Hl.
        split; [assumption|]. eauto.
Qed.

Lemma startsWithClosingHead_iff (s : string) :
  startsWithCI "</head>" s = true <->
  exists tag post, s = (tag ++ post)%string /\ isClosingHead tag = true.
Proof.
  rewrite startsWithCI_iff. unfold isClosingHead.
  split; intros [tag [post [Hs Hl]]]; exists tag, post; split; try assumption.
  - rewrite Hl. reflexivity.
  - now apply String.eqb_eq.
Qed.

Lemma isClosingHead_not_empty : isClosingHead EmptyString = false.
Proof. reflexivity. Qed.

Lemma insertBeforeClosingHead_unfold (block : string) (c : ascii) (rest : string) :
  insertBeforeClosingHead block (String c rest) =
  if startsWithCI "</head>" (String c rest)
  then (block ++ String c rest)%string
  else String c (insertBeforeClosingHead block rest).
Proof. reflexivity. Qed.

(** With a closing head tag: the block goes right before the first one. *)
Lemma insertBeforeClosingHead_found (block html : string) :
  containsClosingHead html ->
  exists pre tag post,
    html = (pre ++ tag ++ post)%string /\
    isClosingHead tag = true /\
    (forall pre' tag' post',
       html = (pre' ++ tag' ++ post')%string -> isClosingHead tag' = true ->
       String.length pre <= String.length pre') /\
    insertBeforeClosingHead block html = (pre ++ block ++ tag ++ post)%string.
Proof.
  induction html as [|c rest IH]; intros [pre0 [tag0 [post0 [Hhtml Htag]]]].
  - destruct pre0; [|discriminate]. destruct tag0; [|discriminate].
    rewrite isClosingHead_not_empty in Htag. discriminate.
  - rewrite insertBeforeClosingHead_unfold.
    destruct (startsWithCI "</head>" (String c rest)) eqn:Hstart.
    + apply startsWithClosingHead_iff in Hstart.
      destruct Hstart as [tag [post [Hs Ht]]].
      exists EmptyString, tag, post. simpl.
      repeat split; try assumption.
      * intros. lia.
      * now rewrite Hs.
    + assert (Hrest : forall pre' tag' post',
                 String c rest = (pre' ++ tag' ++ post')%string ->
                 isClosingHead tag' = true ->
                 exists pre'', pre' = String c pre'' /\
                               rest = (pre'' ++ tag' ++ post')%string).
      { intros pre' tag' post' Hs Ht. destruct pre' as [|c' pre''].
        - exfalso. simpl in Hs.
          assert (Hyes : startsWithCI "</head>" (String c rest) = true)
            by (apply startsWithClosingHead_iff; eauto).
          congruence.
        - simpl in Hs. injection Hs as <- ->. eauto. }
      destruct (Hrest _ _ _ Hhtml Htag) as [pre0' [-> Hr0]].
      destruct IH as [pre [tag [post [Hs [Ht [Hmin Hres]]]]]].
      { exists pre0', tag0, post0. auto. }
      exists (String c pre), tag, post. simpl.
      repeat split.
      * now rewrite Hs.
      * assumption.
      * intros pre' tag' post' Hs' Ht'.
        destruct (Hrest _ _ _ Hs' Ht') as [pre'' [-> Hr]].
        simpl. apply le_n_S. eapply Hmin; eauto.
      * now rewrite Hres.
Qed.

(** Without a closing head tag the markup is left as it is. *)
Lemma insertBeforeClosingHead_absent (block html : string) :
  ~ containsClosingHead html -> insertBeforeClosingHead block html = html.
Proof.
  induction html as [|c rest IH]; intros Hno; [reflexivity|].
  rewrite insertBeforeClosingHead_unfold.
  destruct (startsWithCI "</head>" (String c rest)) eqn:Hstart.
  - exfalso. apply Hno. apply startsWithClosingHead_iff in Hstart.
    destruct Hstart as [tag [post [Hs Ht]]].
    exists EmptyString, tag, post. auto.
  - f_equal. apply IH. intros [pre [tag [post [Hs Ht]]]].
    apply Hno. exists (String c pre), tag, post. simpl. now rewrite Hs.
Qed.

(** C4. If the markup holds a closing head tag, in whatever mix of cases,
    the Head Injector returns the markup with the tags, concatenated into
    one block, right before the first such tag and everything else as it
    was; if it holds none, the markup comes back unmodified.  In neither
    case is anything thrown. *)
Theorem head_injector_contract (links : list string) (html : string) :
  (containsClosingHead html ->
   exists pre tag post,
     html = (pre ++ tag ++ post)%string /\
     isClosingHead tag = true /\
     (forall pre' tag' post',
        html = (pre' ++ tag' ++ post')%string -> isClosingHead tag' = true ->
        String.length pre <= String.length pre') /\
     spec_insertLinksIntoHead links html
     = inr (pre ++ String.concat "" links ++ tag ++ post)%string) /\
  (~ containsClosingHead html -> spec_insertLinksIntoHead links html = inr html).
Proof.
  unfold spec_insertLinksIntoHead. split.
  - intros H.
    destruct (insertBeforeClosingHead_found (String.concat "" links) html H)
      as [pre [tag [post [Hs [Ht [Hmin Hres]]]]]].
    exists pre, tag, post. repeat split; try assumption.
    now rewrite Hres.
  - intros H. now rewrite insertBeforeClosingHead_absent.
Qed.

(** The markup [addLinks] returns is what the injector made of the markup
    it was given; the rest of the payload is as it was. *)
Lemma addLinks_html_from_injector (L : Lib) (this : Options) (webpackVersion : string)
    (compilation : Compilation) (htmlPluginData result : HtmlPluginData) :
  snd (addLinks L this webpackVersion compilation htmlPluginData) = inr result ->
  result = htmlPluginData \/
  exists links newHtml,
    insertLinksIntoHead L links (html htmlPluginData) = inr newHtml /\
    result = set_html htmlPluginData newHtml.
Proof.
  unfold addLinks. intros H.
  apply bind_inr in H. destruct H as [[] [_ H]].
  destruct (isExcluded this htmlPluginData).
  - simpl in H. injection H as <-. now left.
  - right.
    apply bind_inr in H. destruct H as [htmlChunks [_ H]].
    apply bind_inr in H. destruct H as [links [_ H]].
    apply bind_inr in H. destruct H as [newHtml [Hi H]].
    simpl in Hi, H. injection H as <-. eauto.
Qed.

Example inject_before_first_closing_head :
  spec_insertLinksIntoHead ["<a>"; "<b>"] "<HEAD></HeAd><p></head>"
  = inr "<HEAD><a><b></HeAd><p></head>".
Proof. reflexivity. Qed.

Example inject_without_closing_head :
  spec_insertLinksIntoHead ["<a>"; "<b>"] "<html><body></body></html>"
  = inr "<html><body></body></html>".
Proof. reflexivity. Qed.

(** ** Registration and the hook boundary *)

(** When the compilation has no [htmlWebpackPluginAfterHtmlProcessing] hook
    and the module passed in the options has no [beforeEmit] hook either,
    the listener pushes the ordering error onto [compilation.errors] and
    registers nothing. *)
Lemma no_hook_pushes_ordering_error (L : Lib) (this : Options)
    (compilation : Compilation) (module : HtmlWebpackPluginModule) :
  hooks_htmlWebpackPluginAfterHtmlProcessing compilation = None ->
  HtmlWebpackPlugin this = Some module ->
  getHooks module compilation = inr {| beforeEmit := None |} ->
  compilationTap L this compilation
  = inr (ErrorPushed (push_error compilation orderingError)) /\
  errors (push_error compilation orderingError)
  = errors compilation ++ [orderingError].
Proof.
  intros Hh Hm Hg. unfold compilationTap, findHook.
  rewrite Hh, Hm, Hg. split; reflexivity.
Qed.

(** C8, at the input where the code departs from it.  On a compiler with
    hooks, when the compilation has no
    [htmlWebpackPluginAfterHtmlProcessing] hook and no [HtmlWebpackPlugin]
    module was passed in the options, line 141 throws a [TypeError] out of
    the listener: the ordering error of lines 146-150 is not reached and
    [compilation.errors] is not written. *)
Theorem missing_module_throws_out_of_listener :
  HtmlWebpackPlugin (plainOptions "preload" "asyncChunks") = None /\
  hooks_htmlWebpackPluginAfterHtmlProcessing distCompilation = None /\
  exists listener,
    apply sampleLib (plainOptions "preload" "asyncChunks") hooksCompiler
    = HooksCompilationTap pluginName listener /\
    listener distCompilation
    = inl (TypeError "Cannot read property 'getHooks' of undefined").
Proof.
  repeat split. eexists. split; reflexivity.
Qed.

Lemma registeredHandler_is_hookHandler (L : Lib) (this : Options) (compiler : Compiler)
    (compilation : Compilation) (handler : Handler) :
  registeredHandler L this compiler compilation = Some handler ->
  handler = hookHandler L this (versionPassed compiler) compilation.
Proof.
  unfold registeredHandler, apply, versionPassed.
  destruct (hooks_in_compiler compiler).
  - unfold compilationTap.
    destruct (findHook this compilation) as [e|[hook|]]; try discriminate.
    intros H. injection H as <-. reflexivity.
  - unfold compilationPlugin. intros H. injection H as <-. reflexivity.
Qed.

(** C9. Whichever way [apply] registered its handler, when [addLinks]
    throws in it the handler catches the error and passes it to the host's
    callback, once, as its only argument; what the handler then returns or
    throws is what that call of the callback does, so an error of the
    pipeline never leaves the handler by itself. *)
Theorem pipeline_error_goes_to_callback (L : Lib) (this : Options) (compiler : Compiler)
    (compilation : Compilation) (handler : Handler) (htmlPluginData : HtmlPluginData)
    (callback : Callback) (log : list Event) (error : Error) :
  registeredHandler L this compiler compilation = Some handler ->
  addLinks L this (versionPassed compiler) compilation htmlPluginData = (log, inl error) ->
  handler htmlPluginData callback
  = (log ++ [CallCallback (CallbackError error)], callback (CallbackError error)).
Proof.
  intros Hreg Hthrow.
  apply registeredHandler_is_hookHandler in Hreg. subst handler.
  unfold hookHandler.
  rewrite (bind_inl_left _ _ log error Hthrow).
  reflexivity.
Qed.

Lemma pipeline_error_goes_to_callback_witness :
  exists handler,
    registeredHandler sampleLib (plainOptions "preload" "asyncChunks")
      legacyCompiler distCompilation = Some handler /\
    handler pageWithoutAssets (fun _ => inr tt)
    = ([ CallExtractChunks "asyncChunks";
         CallCallback
           (CallbackError (TypeError "Cannot read property 'chunks' of undefined")) ],
       inr tt).
Proof.
  eexists. split; [reflexivity|].
  apply (pipeline_error_goes_to_callback
           sampleLib (plainOptions "preload" "asyncChunks") legacyCompiler
           distCompilation _ pageWithoutAssets (fun _ => inr tt)
           [CallExtractChunks "asyncChunks"]
           (TypeError "Cannot read property 'chunks' of undefined"));
    reflexivity.
Defined.

(** When the callback takes the error without throwing, the handler
    returns normally: the next document is processed as usual. *)
Lemma handler_returns_when_callback_does (L : Lib) (this : Options)
    (webpackVersion : string) (compilation : Compilation)
    (htmlPluginData : HtmlPluginData) (callback : Callback) :
  (forall args, callback args = inr tt) ->
  snd (hookHandler L this webpackVersion compilation htmlPluginData callback) = inr tt.
Proof.
  intros Hcb. unfold hookHandler.
  destruct (addLinks L this webpackVersion compilation htmlPluginData)
    as [log [e|result]]; simpl; rewrite ?Hcb; simpl; auto.
Qed.

(** ** Further scenarios *)

(** A font under preload carries [as] and [crossorigin]. *)
Example font_descriptor :
  snd (attributesOf sampleLib (plainOptions "preload" "asyncChunks")
         (VString "/dist/") "font.woff2")
  = inr [("href", Some "/dist/font.woff2"); ("rel", Some "preload");
         ("as", Some "font"); ("crossorigin", Some "anonymous")].
Proof. reflexivity. Qed.

(** Under prefetch there is [href] and [rel] only, and the resolver is not
    called. *)
Example prefetch_descriptor :
  attributesOf sampleLib (plainOptions "prefetch" "asyncChunks")
    (VString "/dist/") "font.woff2"
  = ([], inr [("href", Some "/dist/font.woff2"); ("rel", Some "prefetch")]).
Proof. reflexivity. Qed.

(** An unknown extension under preload: [as] is [undefined] and the tag is
    written without it. *)
Example unknown_extension_tag :
  snd (linkElementString sampleLib (plainOptions "preload" "asyncChunks")
         (VString "/dist/") "data.bin")
  = inr ("<link href=" ++ dq ++ "/dist/data.bin" ++ dq
         ++ " rel=" ++ dq ++ "preload" ++ dq ++ ">")%string.
Proof. reflexivity. Qed.

(** A version that is no property of the table at all. *)
Example unknown_version_on_scenario :
  addLinks sampleLib (plainOptions "preload" "asyncChunks") "v5" distCompilation indexPage
  = ([], inl (AssertionError
                "An invalid webpackVersion was supplied. Supported values: v3,v4.")).
Proof. reflexivity. Qed.

(** The ordering error, when the module passed in has no [beforeEmit]. *)
Example ordering_error_on_scenario :
  compilationTap sampleLib
    {| rel := "preload"; include := "asyncChunks";
       fileWhitelist := None; fileBlacklist := None;
       optionsAs := AsUndefined; excludeHtmlNames := [];
       HtmlWebpackPlugin := Some moduleWithoutBeforeEmit |}
    distCompilation
  = inr (ErrorPushed
           {| chunks := [appChunk];
              outputOptions_publicPath := VString "/dist/";
              errors := [orderingError];
              hooks_htmlWebpackPluginAfterHtmlProcessing := None |}).
Proof. reflexivity. Qed.

(** * Further properties of the code *)

(** ** Running a bind *)

Lemma bind_run_inr {A B} (m : M A) (f : A -> M B) (a : A) :
  snd m = inr a -> bind m f = (fst m ++ fst (f a), snd (f a)).
Proof.
  destruct m as [log [e|a']]; simpl; intros H; [discriminate|].
  injection H as ->. now destruct (f a).
Qed.

Lemma bind_run_inl {A B} (m : M A) (f : A -> M B) (e : Error) :
  snd m = inl e -> bind m f = (fst m, inl e).
Proof.
  destruct m as [log [e'|a]]; simpl; intros H; [|discriminate].
  now injection H as ->.
Qed.

Lemma mapM_run {A B} (f : A -> M B) (l : list A) (ys : list B) :
  snd (mapM f l) = inr ys ->
  Forall2 (fun x y => snd (f x) = inr y) l ys /\
  fst (mapM f l) = flat_map (fun x => fst (f x)) l.
Proof.
  revert ys. induction l as [|x l IH]; intros ys H; simpl in *.
  - injection H as <-. split; [constructor|reflexivity].
  - destruct (bind_inr _ _ _ H) as [y [Hy H']].
    destruct (bind_inr _ _ _ H') as [ys' [Hys H'']].
    simpl in H''. injection H'' as <-.
    destruct (IH ys' Hys) as [Hall Hlog].
    split; [constructor; assumption|].
    rewrite (bind_run_inr _ _ y Hy). simpl.
    rewrite (bind_run_inr _ _ ys' Hys). simpl.
    now rewrite app_nil_r, Hlog.
Qed.

Lemma filterM_run {A} (p : A -> M bool) (l kept : list A) (x : A) :
  snd (filterM p l) = inr kept ->
  (In x kept <-> In x l /\ snd (p x) = inr true).
Proof.
  revert kept. induction l as [|y l IH]; intros kept H; simpl in *.
  - injection H as <-. simpl. tauto.
  - destruct (bind_inr _ _ _ H) as [keep [Hk H']].
    destruct (bind_inr _ _ _ H') as [kept' [Hkept H'']].
    simpl in H''. injection H'' as <-.
    specialize (IH kept' Hkept).
    destruct keep; simpl; rewrite IH; split.
    + intros [<-|[Hin Hp]]; auto.
    + intros [[<-|Hin] Hp]; auto.
    + intros [Hin Hp]. auto.
    + intros [[<-|Hin] Hp]; [congruence|auto].
Qed.

(** ** The constructor *)

Lemma assoc_set_property {V} (k k' : string) (v : V) (o : list (string * V)) :
  assoc k (set_property k' v o) = if k' =? k then Some v else assoc k o.
Proof.
  unfold assoc. induction o as [|[k0 v0] o IH]; simpl.
  - destruct (k' =? k); reflexivity.
  - destruct (String.eqb_spec k0 k') as [->|Hne]; simpl.
    + destruct (k' =? k); reflexivity.
    + destruct (String.eqb_spec k0 k) as [->|Hne0].
      * destruct (String.eqb_spec k' k) as [->|_]; [contradiction|reflexivity].
      * exact IH.
Qed.

Lemma assoc_not_in_keys {V} (k : string) (l : list (string * V)) :
  ~ In k (map fst l) -> assoc k l = None.
Proof.
  unfold assoc. induction l as [|[k' v'] l IH]; simpl; [reflexivity|].
  intros H. destruct (String.eqb_spec k' k) as [->|Hne]; [tauto|].
  apply IH. tauto.
Qed.

Lemma assoc_assign_properties {V} (k : string) (properties target : list (string * V)) :
  NoDup (map fst properties) ->
  assoc k (fold_left (fun t kv => set_property (fst kv) (snd kv) t) properties target)
  = match assoc k properties with
    | Some v => Some v
    | None => assoc k target
    end.
Proof.
  revert target. induction properties as [|[k1 v1] properties IH];
    intros target Hnd; simpl; [reflexivity|].
  inversion Hnd as [|? ? Hnotin Hnd']; subst.
  rewrite (IH _ Hnd'), assoc_set_property.
  unfold assoc at 3. simpl. fold (assoc k properties).
  destruct (String.eqb_spec k1 k) as [->|Hne]; [|reflexivity].
  now rewrite (assoc_not_in_keys _ _ Hnotin).
Qed.

(** Line 29.  An option the caller passes, were it [undefined], replaces
    the default of that name; an option the caller does not pass keeps
    its default; a name in neither is not in [this.options]. *)
Theorem constructor_option_lookup {V} (defaultOptions options : list (string * V))
    (k : string) :
  NoDup (map fst defaultOptions) ->
  NoDup (map fst options) ->
  assoc k (constructor defaultOptions (Some options))
  = match assoc k options with
    | Some v => Some v
    | None => assoc k defaultOptions
    end.
Proof.
  intros Hd Ho. unfold constructor, Object_assign, assign_source. simpl.
  rewrite (assoc_assign_properties _ _ _ Ho), (assoc_assign_properties _ _ _ Hd).
  destruct (assoc k options); [reflexivity|].
  destruct (assoc k defaultOptions); reflexivity.
Qed.

Lemma NoDup_sample_keys (a b : string) : a <> b -> NoDup [a; b].
Proof.
  intros H. constructor; [intros [Heq|[]]; congruence|].
  constructor; [intros []|constructor].
Qed.

Lemma constructor_option_lookup_witness :
  assoc "include" (constructor sampleDefaults (Some sampleUserOptions)) = Some VUndefined /\
  assoc "rel" (constructor sampleDefaults (Some sampleUserOptions))
  = Some (VString "preload").
Proof.
  split.
  - apply (constructor_option_lookup sampleDefaults sampleUserOptions "include");
      apply NoDup_sample_keys; discriminate.
  - apply (constructor_option_lookup sampleDefaults sampleUserOptions "rel");
      apply NoDup_sample_keys; discriminate.
Defined.

Lemma assign_onto_prefix {V} (done todo : list (string * V)) :
  NoDup (map fst (done ++ todo)) ->
  fold_left (fun t kv => set_property (fst kv) (snd kv) t) todo done = done ++ todo.
Proof.
  revert done. induction todo as [|[k v] todo IH]; intros done Hnd; simpl.
  - now rewrite app_nil_r.
  - assert (Hset : set_property k v done = done ++ [(k, v)]).
    { assert (Hnotin : ~ In k (map fst done)).
      { rewrite map_app in Hnd. simpl in Hnd.
        apply NoDup_remove_2 in Hnd. rewrite in_app_iff in Hnd. tauto. }
      clear -Hnotin. induction done as [|[k0 v0] done IHd]; simpl; [reflexivity|].
      simpl in Hnotin.
      destruct (String.eqb_spec k0 k) as [->|Hne]; [tauto|].
      rewrite IHd; [reflexivity|tauto]. }
    rewrite Hset, IH; rewrite <- app_assoc; [reflexivity|exact Hnd].
Qed.

(** Line 29.  Called without options, the constructor leaves a copy of the
    defaults, property for property and in their order. *)
Theorem constructor_without_options {V} (defaultOptions : list (string * V)) :
  NoDup (map fst defaultOptions) ->
  constructor defaultOptions None = defaultOptions.
Proof.
  intros Hd. unfold constructor, Object_assign, assign_source. simpl.
  now rewrite assign_onto_prefix.
Qed.

Lemma constructor_without_options_witness :
  constructor sampleDefaults None = sampleDefaults.
Proof.
  apply (constructor_without_options sampleDefaults).
  apply NoDup_sample_keys. discriminate.
Defined.

(** ** What a run of [addLinks] calls *)

Lemma htmlChunksOf_log_cases (L : Lib) (this : Options) (webpackVersion : string)
    (compilation : Compilation) (htmlPluginData : HtmlPluginData) (ev : Event) :
  In ev (fst (htmlChunksOf L this webpackVersion compilation htmlPluginData)) ->
  ev = CallExtractChunks (include this) \/
  (include this <> "allAssets" /\
   exists chunk, ev = CallDoesChunkBelongToHTML webpackVersion chunk).
Proof.
  unfold htmlChunksOf. intros H.
  apply bind_log_in in H. destruct H as [H|[extracted [_ H]]].
  - simpl in H. destruct H as [<-|[]]. now left.
  - destruct (String.eqb_spec (include this) "allAssets") as [Heq|Hne]; [destruct H|].
    right. split; [assumption|].
    apply filterM_log_in in H. destruct H as [chunk [_ H]].
    unfold chunkBelongs in H.
    apply bind_log_in in H. destruct H as [H|[cs [_ H]]].
    + destruct (assets htmlPluginData); destruct H.
    + destruct (get_property webpackVersion (doesChunkBelongToHTML L)); simpl in H;
        [destruct H as [<-|[]]; eauto|destruct H].
Qed.

Lemma attributesOf_log_preload (L : Lib) (this : Options) (publicPath : JSValue)
    (file : string) (ev : Event) :
  In ev (fst (attributesOf L this publicPath file)) -> rel this = "preload".
Proof.
  unfold attributesOf.
  destruct (String.eqb_spec (rel this) "preload") as [Heq|Hne]; [auto|intros []].
Qed.

Lemma linksOf_log_cases (L : Lib) (this : Options) (publicPath : JSValue)
    (sortedFiles : list string) (ev : Event) :
  In ev (fst (linksOf L this publicPath sortedFiles)) ->
  (rel this = "preload" /\
   exists file, In file sortedFiles /\ ev = CallDetermineAsValue (hrefOf publicPath file)) \/
  (exists file a,
     In file sortedFiles /\
     snd (attributesOf L this publicPath file) = inr a /\
     ev = CallCreateHTMLElementString a "link").
Proof.
  unfold linksOf. intros H. apply mapM_log_in in H.
  destruct H as [file [Hin H]].
  unfold linkElementString in H.
  apply bind_log_in in H. destruct H as [H|[a [Ha H]]].
  - left. split; [eapply attributesOf_log_preload; exact H|].
    exists file. split; [assumption|]. eapply attributesOf_log; exact H.
  - right. simpl in H. destruct H as [<-|[]]. eauto.
Qed.

(** The run after the version check and the exclusion test. *)
Lemma addLinks_run (L : Lib) (this : Options) (webpackVersion : string)
    (compilation : Compilation) (htmlPluginData : HtmlPluginData) :
  js_in webpackVersion (doesChunkBelongToHTML L) = true ->
  isExcluded this htmlPluginData = false ->
  addLinks L this webpackVersion compilation htmlPluginData
  = (htmlChunks <- htmlChunksOf L this webpackVersion compilation htmlPluginData ;;
     links <- linksOf L this (publicPathOf compilation)
                (sortedFilteredFiles this htmlChunks) ;;
     newHtml <- call (CallInsertLinksIntoHead links (html htmlPluginData))
                     (insertLinksIntoHead L links (html htmlPluginData)) ;;
     ret (set_html htmlPluginData newHtml)).
Proof.
  intros Hv He. unfold addLinks. rewrite Hv, He. simpl.
  now destruct (bind _ _).
Qed.

(** What the end of the run makes of the injector's answer. *)
Lemma injector_step (L : Lib) (htmlPluginData : HtmlPluginData) (links : list string) :
  (newHtml <- call (CallInsertLinksIntoHead links (html htmlPluginData))
                   (insertLinksIntoHead L links (html htmlPluginData)) ;;
   ret (set_html htmlPluginData newHtml))
  = ([CallInsertLinksIntoHead links (html htmlPluginData)],
     match insertLinksIntoHead L links (html htmlPluginData) with
     | inl e => inl e
     | inr newHtml => inr (set_html htmlPluginData newHtml)
     end).
Proof.
  unfold call, bind, ret.
  destruct (insertLinksIntoHead L links (html htmlPluginData)); reflexivity.
Qed.

Lemma addLinks_log_cases (L : Lib) (this : Options) (webpackVersion : string)
    (compilation : Compilation) (htmlPluginData : HtmlPluginData) (ev : Event) :
  In ev (fst (addLinks L this webpackVersion compilation htmlPluginData)) ->
  ev = CallExtractChunks (include this) \/
  (include this <> "allAssets" /\
   exists chunk, ev = CallDoesChunkBelongToHTML webpackVersion chunk) \/
  (rel this = "preload" /\
   exists file, ev = CallDetermineAsValue (hrefOf (publicPathOf compilation) file)) \/
  (exists a, ev = CallCreateHTMLElementString a "link") \/
  (exists links, ev = CallInsertLinksIntoHead links (html htmlPluginData)).
Proof.
  unfold addLinks. intros H.
  apply bind_log_in in H. destruct H as [H|[[] [_ H]]].
  { unfold assert in H. destruct (js_in _ _); destruct H. }
  destruct (isExcluded this htmlPluginData); [destruct H|].
  apply bind_log_in in H. destruct H as [H|[htmlChunks [_ H]]].
  { apply htmlChunksOf_log_cases in H. tauto. }
  apply bind_log_in in H. destruct H as [H|[links [_ H]]].
  { apply linksOf_log_cases in H.
    destruct H as [[Hrel [file [_ ->]]]|[file [a [_ [_ ->]]]]]; eauto 8. }
  rewrite injector_step in H. simpl in H. destruct H as [<-|[]]. eauto 8.
Qed.

Lemma unknown_version_fails_fast_witness :
  addLinks sampleLib excludingOptions "v5" distCompilation indexPage
  = ([], inl (AssertionError
                "An invalid webpackVersion was supplied. Supported values: v3,v4.")).
Proof.
  apply (unknown_version_fails_fast sampleLib excludingOptions "v5"
           distCompilation indexPage).
  reflexivity.
Defined.

(** Lines 48-56.  With [include] set to allAssets the chunks are those
    [extractChunks] returned: no entry of [doesChunkBelongToHTML] is
    called in the run, and [htmlPluginData.assets] is not read. *)
Theorem allAssets_skips_association (L : Lib) (this : Options) (webpackVersion : string)
    (compilation : Compilation) (htmlPluginData : HtmlPluginData) :
  include this = "allAssets" ->
  htmlChunksOf L this webpackVersion compilation htmlPluginData
  = ([CallExtractChunks "allAssets"], extractChunks L compilation "allAssets") /\
  forall version chunk,
    ~ In (CallDoesChunkBelongToHTML version chunk)
         (fst (addLinks L this webpackVersion compilation htmlPluginData)).
Proof.
  intros Hinc. split.
  - unfold htmlChunksOf. rewrite Hinc. simpl.
    destruct (extractChunks L compilation "allAssets"); reflexivity.
  - intros version chunk H. apply addLinks_log_cases in H.
    destruct H as [H|[[Hne _]|[[_ [file H]]|[[a H]|[links H]]]]];
      try discriminate. contradiction.
Qed.

Lemma allAssets_skips_association_witness :
  htmlChunksOf sampleLib (plainOptions "preload" "allAssets") "v4"
    distCompilation pageWithoutAssets
  = ([CallExtractChunks "allAssets"], inr [appChunk]).
Proof.
  apply (allAssets_skips_association sampleLib (plainOptions "preload" "allAssets")
           "v4" distCompilation pageWithoutAssets).
  reflexivity.
Defined.

(** Lines 52-56.  In any other mode, when [htmlPluginData.assets] is
    [undefined] and there is a chunk to test, the run stops with a
    [TypeError] right after [extractChunks]: nothing else is called and no
    markup is produced. *)
Theorem missing_assets_throws (L : Lib) (this : Options) (webpackVersion : string)
    (compilation : Compilation) (htmlPluginData : HtmlPluginData)
    (chunk : Chunk) (others : list Chunk) :
  js_in webpackVersion (doesChunkBelongToHTML L) = true ->
  isExcluded this htmlPluginData = false ->
  include this <> "allAssets" ->
  extractChunks L compilation (include this) = inr (chunk :: others) ->
  assets htmlPluginData = None ->
  addLinks L this webpackVersion compilation htmlPluginData
  = ([CallExtractChunks (include this)],
     inl (TypeError "Cannot read property 'chunks' of undefined")).
Proof.
  intros Hv He Hinc Hx Ha.
  rewrite (addLinks_run _ _ _ _ _ Hv He).
  unfold htmlChunksOf, chunkBelongs. rewrite Hx.
  apply String.eqb_neq in Hinc. rewrite Hinc, Ha. reflexivity.
Qed.

Lemma missing_assets_throws_witness :
  addLinks sampleLib (plainOptions "preload" "asyncChunks") "v4"
    distCompilation pageWithoutAssets
  = ([CallExtractChunks "asyncChunks"],
     inl (TypeError "Cannot read property 'chunks' of undefined")).
Proof.
  apply (missing_assets_throws sampleLib (plainOptions "preload" "asyncChunks") "v4"
           distCompilation pageWithoutAssets appChunk []);
    try reflexivity.
  discriminate.
Defined.

(** Lines 43-113.  When [extractChunks] returns no chunk, in either mode
    and whatever [assets] is, the only other call is the injector's, with
    an empty list of links and the markup as given; its answer is the
    outcome of the run. *)
Theorem no_chunks_no_links (L : Lib) (this : Options) (webpackVersion : string)
    (compilation : Compilation) (htmlPluginData : HtmlPluginData) :
  js_in webpackVersion (doesChunkBelongToHTML L) = true ->
  isExcluded this htmlPluginData = false ->
  extractChunks L compilation (include this) = inr [] ->
  addLinks L this webpackVersion compilation htmlPluginData
  = ([CallExtractChunks (include this);
      CallInsertLinksIntoHead [] (html htmlPluginData)],
     match insertLinksIntoHead L [] (html htmlPluginData) with
     | inl e => inl e
     | inr newHtml => inr (set_html htmlPluginData newHtml)
     end).
Proof.
  intros Hv He Hx.
  rewrite (addLinks_run _ _ _ _ _ Hv He).
  assert (Hc : htmlChunksOf L this webpackVersion compilation htmlPluginData
               = ([CallExtractChunks (include this)], inr [])).
  { unfold htmlChunksOf. rewrite Hx. simpl.
    destruct (include this =? "allAssets"); reflexivity. }
  rewrite (bind_run_inr _ _ [] (f_equal snd Hc)), Hc.
  assert (Hs : sortedFilteredFiles this [] = []) by reflexivity.
  rewrite Hs. unfold linksOf. simpl mapM.
  rewrite (bind_run_inr (ret []) _ [] eq_refl).
  rewrite injector_step. reflexivity.
Qed.

Lemma no_chunks_no_links_witness :
  addLinks sampleLib (plainOptions "preload" "asyncChunks") "v4"
    emptyCompilation pageWithoutAssets
  = ([CallExtractChunks "asyncChunks";
      CallInsertLinksIntoHead [] "<html><head></head></html>"],
     inr pageWithoutAssets).
Proof.
  apply (no_chunks_no_links sampleLib (plainOptions "preload" "asyncChunks") "v4"
           emptyCompilation pageWithoutAssets);
    reflexivity.
Defined.

(** Lines 89-101.  Unless [rel] is exactly preload, [determineAsValue] is
    not called in the run, whatever the files are. *)
Theorem resolver_called_under_preload_only (L : Lib) (this : Options)
    (webpackVersion : string) (compilation : Compilation)
    (htmlPluginData : HtmlPluginData) (href : string) :
  rel this <> "preload" ->
  ~ In (CallDetermineAsValue href)
       (fst (addLinks L this webpackVersion compilation htmlPluginData)).
Proof.
  intros Hrel H. apply addLinks_log_cases in H.
  destruct H as [H|[[_ [chunk H]]|[[Hp _]|[[a H]|[links H]]]]];
    try discriminate. contradiction.
Qed.

Lemma resolver_called_under_preload_only_witness :
  ~ In (CallDetermineAsValue "/dist/app.js")
       (fst (addLinks sampleLib (plainOptions "prefetch" "asyncChunks") "v4"
               distCompilation indexPage)).
Proof.
  apply (resolver_called_under_preload_only sampleLib
           (plainOptions "prefetch" "asyncChunks") "v4" distCompilation indexPage).
  discriminate.
Defined.

(** ** More on the File Selector *)

Lemma selected_NoDup (this : Options) (htmlChunks : list Chunk) :
  NoDup (sortedFilteredFiles this htmlChunks).
Proof.
  unfold sortedFilteredFiles.
  eapply Permutation_NoDup; [symmetry; apply Array_sort_perm|].
  apply filteredFiles_NoDup.
Qed.

(** Lines 59-75.  When no pattern of the two lists has the [g] or the
    [y] flag, the selected files depend on the chunks only through the set
    of files they hold: other chunk boundaries, another order, repeated
    files give the same list. *)
Theorem selection_depends_on_file_set_only (this : Options)
    (htmlChunks htmlChunks' : list Chunk) :
  flagless (fileWhitelist this) = true ->
  flagless (fileBlacklist this) = true ->
  (forall file,
     (exists chunk, In chunk htmlChunks /\ In file (files chunk)) <->
     (exists chunk, In chunk htmlChunks' /\ In file (files chunk))) ->
  sortedFilteredFiles this htmlChunks = sortedFilteredFiles this htmlChunks'.
Proof.
  intros Hw Hb Hsame.
  apply sorted_perm_unique; try apply Array_sort_sorted.
  apply NoDup_Permutation; try apply selected_NoDup.
  intros file.
  rewrite !(selected_in_iff_flagless _ _ _ Hw Hb), Hsame. reflexivity.
Qed.

Lemma selection_depends_on_file_set_only_witness :
  sortedFilteredFiles cssWhitelistOptions [appChunk]
  = sortedFilteredFiles cssWhitelistOptions [stylesChunk; scriptsChunk].
Proof.
  apply (selection_depends_on_file_set_only cssWhitelistOptions
           [appChunk] [stylesChunk; scriptsChunk]); try reflexivity.
  intros file. split.
  - intros [chunk [[<-|[]] Hf]].
    exists scriptsChunk. split; [simpl; auto|].
    simpl in *. tauto.
  - intros [chunk [[<-|[<-|[]]] Hf]];
      (exists appChunk; split; [simpl; auto|]); simpl in *; tauto.
Defined.

(** Where a pattern has the [g] flag the order of the files does count:
    the same two files in the two orders give different selections. *)
Example global_pattern_makes_order_count :
  sortedFilteredFiles jsWhitelistOptions
    [{| chunk_id := "ab"; files := ["a.js"; "b.js"] |}] = ["a.js"] /\
  sortedFilteredFiles jsWhitelistOptions
    [{| chunk_id := "ba"; files := ["b.js"; "a.js"] |}] = ["b.js"].
Proof. split; reflexivity. Qed.

(** Lines 63-67.  An allow-list that is present but holds no pattern
    selects no file: only an absent list lets every file through. *)
Theorem empty_whitelist_selects_nothing (this : Options) (htmlChunks : list Chunk) :
  fileWhitelist this = Some [] ->
  sortedFilteredFiles this htmlChunks = [].
Proof.
  intros Hw.
  destruct (sortedFilteredFiles this htmlChunks) as [|file rest] eqn:Hs; [reflexivity|].
  assert (Hin : In file (sortedFilteredFiles this htmlChunks))
    by (rewrite Hs; now left).
  unfold sortedFilteredFiles in Hin.
  apply (Permutation_in _ (Array_sort_perm _)) in Hin.
  apply filteredFiles_in in Hin. destruct Hin as [_ [[w Hp] _]].
  unfold passesWhitelist in Hp. rewrite Hw in Hp. discriminate.
Qed.

Lemma empty_whitelist_selects_nothing_witness :
  sortedFilteredFiles emptyWhitelistOptions [appChunk] = [].
Proof.
  apply (empty_whitelist_selects_nothing emptyWhitelistOptions [appChunk]).
  reflexivity.
Defined.

Lemma string_app_inv_head (p a b : string) : (p ++ a = p ++ b)%string -> a = b.
Proof.
  induction p as [|c p IH]; simpl; intros H; [assumption|].
  injection H as H. now apply IH.
Qed.

Lemma NoDup_map_injective {A B} (f : A -> B) (l : list A) :
  (forall x y, f x = f y -> x = y) -> NoDup l -> NoDup (map f l).
Proof.
  intros Hinj. induction 1 as [|x l Hnotin Hnd IH]; simpl; constructor; [|assumption].
  intros Hin. apply in_map_iff in Hin. destruct Hin as [y [Hxy Hy]].
  apply Hinj in Hxy. now subst y.
Qed.

(** Lines 59-80.  The hrefs of the selected files are pairwise different:
    no URL is linked twice, whatever the public path. *)
Theorem hrefs_are_distinct (this : Options) (htmlChunks : list Chunk)
    (compilation : Compilation) :
  NoDup (map (hrefOf (publicPathOf compilation))
             (sortedFilteredFiles this htmlChunks)).
Proof.
  apply NoDup_map_injective; [|apply selected_NoDup].
  intros x y. unfold hrefOf. apply string_app_inv_head.
Qed.

(** ** More on the chunks and the links of a run *)

Lemma chunkBelongs_true (L : Lib) (webpackVersion : string) (compilation : Compilation)
    (htmlPluginData : HtmlPluginData) (chunk : Chunk) :
  snd (chunkBelongs L webpackVersion compilation htmlPluginData chunk) = inr true <->
  exists variant assets_chunks,
    get_property webpackVersion (doesChunkBelongToHTML L) = Some variant /\
    assets htmlPluginData = Some assets_chunks /\
    variant chunk compilation (map snd assets_chunks) = inr true.
Proof.
  unfold chunkBelongs.
  destruct (assets htmlPluginData) as [assets_chunks|]; simpl.
  - destruct (get_property webpackVersion (doesChunkBelongToHTML L)) as [variant|];
      simpl.
    + split.
      * intros H. exists variant, assets_chunks. auto.
      * intros [variant' [cs [Hv [Hc H]]]].
        injection Hv as <-. injection Hc as <-. exact H.
    + split; [discriminate|]. intros [variant [cs [Hv _]]]. discriminate.
  - split; [discriminate|]. intros [variant [cs [_ [Hc _]]]]. discriminate.
Qed.

(** Lines 43-56.  In a mode other than allAssets, when the chunks of the
    document are obtained, they are exactly the extracted chunks for which
    the entry of the given version returned a truthy value, called with
    the chunk, the compilation and the values of [assets.chunks]. *)
Theorem kept_chunks_are_the_accepted_ones (L : Lib) (this : Options)
    (webpackVersion : string) (compilation : Compilation)
    (htmlPluginData : HtmlPluginData) (htmlChunks : list Chunk) (chunk : Chunk) :
  include this <> "allAssets" ->
  snd (htmlChunksOf L this webpackVersion compilation htmlPluginData) = inr htmlChunks ->
  (In chunk htmlChunks <->
   exists extractedChunks variant assets_chunks,
     extractChunks L compilation (include this) = inr extractedChunks /\
     In chunk extractedChunks /\
     get_property webpackVersion (doesChunkBelongToHTML L) = Some variant /\
     assets htmlPluginData = Some assets_chunks /\
     variant chunk compilation (map snd assets_chunks) = inr true).
Proof.
  intros Hinc H. unfold htmlChunksOf in H.
  apply bind_inr in H. destruct H as [extracted [Hx H]]. simpl in Hx.
  apply String.eqb_neq in Hinc. rewrite Hinc in H.
  rewrite (filterM_run _ _ _ chunk H), chunkBelongs_true, Hx.
  split.
  - intros [Hin [variant [cs [Hv [Ha Hr]]]]]. exists extracted, variant, cs. auto.
  - intros [extracted' [variant [cs [He [Hin [Hv [Ha Hr]]]]]]].
    injection He as <-. split; [assumption|]. eauto.
Qed.

Lemma kept_chunks_are_the_accepted_ones_witness :
  In appChunk [appChunk] <->
  exists extractedChunks variant assets_chunks,
    extractChunks (spec_lib onlyApp onlyApp) twoChunkCompilation "asyncChunks"
    = inr extractedChunks /\
    In appChunk extractedChunks /\
    get_property "v4" (doesChunkBelongToHTML (spec_lib onlyApp onlyApp)) = Some variant /\
    assets indexPage = Some assets_chunks /\
    variant appChunk twoChunkCompilation (map snd assets_chunks) = inr true.
Proof.
  apply (kept_chunks_are_the_accepted_ones (spec_lib onlyApp onlyApp)
           (plainOptions "preload" "asyncChunks") "v4" twoChunkCompilation indexPage
           [appChunk] appChunk).
  - discriminate.
  - reflexivity.
Defined.

Lemma attributesBuilt_app (log log' : list Event) :
  attributesBuilt (log ++ log') = attributesBuilt log ++ attributesBuilt log'.
Proof. unfold attributesBuilt. apply flat_map_app. Qed.

Lemma attributesBuilt_none (log : list Event) :
  (forall a name, ~ In (CallCreateHTMLElementString a name) log) ->
  attributesBuilt log = [].
Proof.
  intros H. destruct (attributesBuilt log) as [|a rest] eqn:Ha; [reflexivity|].
  assert (Hin : In a (attributesBuilt log)) by (rewrite Ha; now left).
  apply attributesBuilt_in in Hin. destruct Hin as [name Hin].
  exfalso. eapply H; exact Hin.
Qed.

Lemma linksOf_hrefs (L : Lib) (this : Options) (publicPath : JSValue)
    (sortedFiles links : list string) :
  snd (linksOf L this publicPath sortedFiles) = inr links ->
  List.length links = List.length sortedFiles /\
  map (get_attribute "href") (attributesBuilt (fst (linksOf L this publicPath sortedFiles)))
  = map (fun file => Some (Some (hrefOf publicPath file))) sortedFiles.
Proof.
  unfold linksOf. revert links.
  induction sortedFiles as [|file rest IH]; intros links H; simpl in *.
  - injection H as <-. auto.
  - destruct (bind_inr _ _ _ H) as [tag [Htag H']].
    destruct (bind_inr _ _ _ H') as [tags [Htags H'']].
    simpl in H''. injection H'' as <-.
    destruct (IH tags Htags) as [Hlen Hhrefs].
    split; [simpl; now rewrite Hlen|].
    rewrite (bind_run_inr _ _ tag Htag). simpl fst.
    rewrite (bind_run_inr _ _ tags Htags). simpl fst.
    rewrite app_nil_r, attributesBuilt_app, map_app, Hhrefs.
    unfold linkElementString in Htag |- *.
    destruct (bind_inr _ _ _ Htag) as [a [Ha _]].
    rewrite (bind_run_inr _ _ a Ha). simpl fst.
    rewrite attributesBuilt_app.
    rewrite (attributesBuilt_none (fst (attributesOf L this publicPath file))).
    + simpl. now rewrite (attributesOf_href _ _ _ _ _ Ha).
    + intros a' name Hin. apply attributesOf_log in Hin. discriminate.
Qed.

(** Lines 77-108.  When [addLinks] returns for a document that is not
    excluded, it has built one attribute set per selected file, in the
    sorted order of the files, each with the href of its file. *)
Theorem one_descriptor_per_selected_file (L : Lib) (this : Options)
    (webpackVersion : string) (compilation : Compilation)
    (htmlPluginData result : HtmlPluginData) :
  isExcluded this htmlPluginData = false ->
  snd (addLinks L this webpackVersion compilation htmlPluginData) = inr result ->
  exists htmlChunks,
    snd (htmlChunksOf L this webpackVersion compilation htmlPluginData) = inr htmlChunks /\
    map (get_attribute "href")
        (attributesBuilt (fst (addLinks L this webpackVersion compilation htmlPluginData)))
    = map (fun file => Some (Some (hrefOf (publicPathOf compilation) file)))
          (sortedFilteredFiles this htmlChunks).
Proof.
  intros He H.
  assert (Hv : js_in webpackVersion (doesChunkBelongToHTML L) = true).
  { unfold addLinks, assert in H.
    destruct (js_in webpackVersion (doesChunkBelongToHTML L)); [reflexivity|discriminate]. }
  rewrite (addLinks_run _ _ _ _ _ Hv He) in H |- *.
  destruct (bind_inr _ _ _ H) as [htmlChunks [Hc H']].
  destruct (bind_inr _ _ _ H') as [links [Hl _]].
  exists htmlChunks. split; [assumption|].
  rewrite (bind_run_inr _ _ htmlChunks Hc). simpl fst.
  rewrite (bind_run_inr _ _ links Hl). simpl fst.
  destruct (insertLinksIntoHead L links (html htmlPluginData)); simpl fst;
    rewrite !attributesBuilt_app.
  all: rewrite (attributesBuilt_none
             (fst (htmlChunksOf L this webpackVersion compilation htmlPluginData)))
    by apply htmlChunksOf_log.
  all: simpl; rewrite app_nil_r; apply (linksOf_hrefs _ _ _ _ _ Hl).
Qed.

Lemma one_descriptor_per_selected_file_witness :
  exists htmlChunks,
    snd (htmlChunksOf sampleLib (plainOptions "prefetch" "asyncChunks") "v3"
           distCompilation indexPage) = inr htmlChunks /\
    map (get_attribute "href")
        (attributesBuilt
           (fst (addLinks sampleLib (plainOptions "prefetch" "asyncChunks") "v3"
                   distCompilation indexPage)))
    = map (fun file => Some (Some (hrefOf (publicPathOf distCompilation) file)))
          (sortedFilteredFiles (plainOptions "prefetch" "asyncChunks") htmlChunks).
Proof.
  apply (one_descriptor_per_selected_file sampleLib
           (plainOptions "prefetch" "asyncChunks") "v3" distCompilation indexPage
           (set_html indexPage
              (insertBeforeClosingHead
                 (String.concat ""
                    ["<link href=" ++ dq ++ "/dist/app.css" ++ dq
                     ++ " rel=" ++ dq ++ "prefetch" ++ dq ++ ">";
                     "<link href=" ++ dq ++ "/dist/app.js" ++ dq
                     ++ " rel=" ++ dq ++ "prefetch" ++ dq ++ ">"]%string)
                 (html indexPage))));
    reflexivity.
Defined.

(** Lines 77-113.  If the injector is called in a run, it is called with
    the markup of the payload as given and with the tags of all the
    selected files, one each, every one of them built without an error;
    and the outcome of the run is then what the injector answers: its
    error, or the payload with its answer as the markup. *)
Theorem injector_gets_every_link (L : Lib) (this : Options) (webpackVersion : string)
    (compilation : Compilation) (htmlPluginData : HtmlPluginData)
    (links : list string) (markup : string) :
  In (CallInsertLinksIntoHead links markup)
     (fst (addLinks L this webpackVersion compilation htmlPluginData)) ->
  markup = html htmlPluginData /\
  exists htmlChunks,
    snd (htmlChunksOf L this webpackVersion compilation htmlPluginData) = inr htmlChunks /\
    snd (linksOf L this (publicPathOf compilation) (sortedFilteredFiles this htmlChunks))
    = inr links /\
    List.length links = List.length (sortedFilteredFiles this htmlChunks) /\
    snd (addLinks L this webpackVersion compilation htmlPluginData)
    = match insertLinksIntoHead L links markup with
      | inl e => inl e
      | inr newHtml => inr (set_html htmlPluginData newHtml)
      end.
Proof.
  intros H.
  assert (Hv : js_in webpackVersion (doesChunkBelongToHTML L) = true).
  { unfold addLinks, assert in H.
    destruct (js_in webpackVersion (doesChunkBelongToHTML L)); [reflexivity|destruct H]. }
  assert (He : isExcluded this htmlPluginData = false).
  { unfold addLinks in H. rewrite Hv in H. simpl in H.
    destruct (isExcluded this htmlPluginData); [destruct H|reflexivity]. }
  rewrite (addLinks_run _ _ _ _ _ Hv He) in H |- *.
  apply bind_log_in in H. destruct H as [H|[htmlChunks [Hc H]]].
  { apply htmlChunksOf_log_cases in H.
    destruct H as [H|[_ [chunk H]]]; discriminate. }
  apply bind_log_in in H. destruct H as [H|[links' [Hl H]]].
  { apply linksOf_log_cases in H.
    destruct H as [[_ [file [_ H]]]|[file [a [_ [_ H]]]]]; discriminate. }
  rewrite injector_step in H. simpl in H. destruct H as [H|[]].
  injection H as -> <-.
  split; [reflexivity|].
  exists htmlChunks. repeat split; try assumption.
  - apply (linksOf_hrefs _ _ _ _ _ Hl).
  - rewrite (bind_run_inr _ _ htmlChunks Hc). cbn [snd].
    rewrite (bind_run_inr _ _ links Hl). cbn [snd].
    rewrite injector_step. reflexivity.
Qed.

Lemma injector_gets_every_link_witness :
  html indexPage = html indexPage /\
  exists htmlChunks,
    snd (htmlChunksOf sampleLib (plainOptions "preload" "asyncChunks") "v4"
           distCompilation indexPage) = inr htmlChunks /\
    snd (linksOf sampleLib (plainOptions "preload" "asyncChunks")
           (publicPathOf distCompilation)
           (sortedFilteredFiles (plainOptions "preload" "asyncChunks") htmlChunks))
    = inr [appCssTag; appJsTag] /\
    List.length [appCssTag; appJsTag]
    = List.length (sortedFilteredFiles (plainOptions "preload" "asyncChunks") htmlChunks) /\
    snd (addLinks sampleLib (plainOptions "preload" "asyncChunks") "v4"
           distCompilation indexPage)
    = match insertLinksIntoHead sampleLib [appCssTag; appJsTag] (html indexPage) with
      | inl e => inl e
      | inr newHtml => inr (set_html indexPage newHtml)
      end.
Proof.
  apply (injector_gets_every_link sampleLib (plainOptions "preload" "asyncChunks") "v4"
           distCompilation indexPage [appCssTag; appJsTag] (html indexPage)).
  rewrite addLinks_on_scenario. simpl. do 6 right. left. reflexivity.
Defined.

Lemma addLinks_html_from_injector_witness :
  indexPageWithLinks = indexPage \/
  exists links newHtml,
    insertLinksIntoHead sampleLib links (html indexPage) = inr newHtml /\
    indexPageWithLinks = set_html indexPage newHtml.
Proof.
  apply (addLinks_html_from_injector sampleLib (plainOptions "preload" "asyncChunks")
           "v4" distCompilation indexPage indexPageWithLinks).
  reflexivity.
Defined.

(** ** More on the handler and the listener *)

(** Lines 160-161 and 174-175.  When [addLinks] returns and the callback
    takes the result without throwing, the handler calls the callback
    once, with no error and the result, and returns. *)
Theorem result_goes_to_callback_once (L : Lib) (this : Options) (webpackVersion : string)
    (compilation : Compilation) (htmlPluginData result : HtmlPluginData)
    (callback : Callback) (log : list Event) :
  addLinks L this webpackVersion compilation htmlPluginData = (log, inr result) ->
  callback (CallbackResult result) = inr tt ->
  hookHandler L this webpackVersion compilation htmlPluginData callback
  = (log ++ [CallCallback (CallbackResult result)], inr tt).
Proof.
  intros Hrun Hcb. unfold hookHandler.
  rewrite (bind_run_inr _ _ result (f_equal snd Hrun)), Hrun.
  simpl. rewrite Hcb. reflexivity.
Qed.

Lemma result_goes_to_callback_once_witness :
  hookHandler sampleLib excludingOptions "v4" distCompilation indexPage quietCallback
  = ([] ++ [CallCallback (CallbackResult indexPage)], inr tt).
Proof.
  apply (result_goes_to_callback_once sampleLib excludingOptions "v4"
           distCompilation indexPage indexPage quietCallback []);
    reflexivity.
Defined.

(** Lines 160-164 and 174-178.  The call of the callback stands inside the
    [try]: when [addLinks] returns but the callback throws on the result,
    the handler calls the callback a second time, now with what it threw,
    and the handler ends as that second call ends. *)
Theorem throwing_callback_is_called_again (L : Lib) (this : Options)
    (webpackVersion : string) (compilation : Compilation)
    (htmlPluginData result : HtmlPluginData)
    (callback : Callback) (log : list Event) (thrown : Error) :
  addLinks L this webpackVersion compilation htmlPluginData = (log, inr result) ->
  callback (CallbackResult result) = inl thrown ->
  hookHandler L this webpackVersion compilation htmlPluginData callback
  = (log ++ [CallCallback (CallbackResult result); CallCallback (CallbackError thrown)],
     callback (CallbackError thrown)).
Proof.
  intros Hrun Hcb. unfold hookHandler.
  rewrite (bind_run_inr _ _ result (f_equal snd Hrun)), Hrun.
  simpl. rewrite Hcb. simpl. now rewrite <- app_assoc.
Qed.

Lemma throwing_callback_is_called_again_witness :
  hookHandler sampleLib excludingOptions "v4" distCompilation indexPage throwingOnResult
  = ([] ++ [CallCallback (CallbackResult indexPage);
            CallCallback (CallbackError (ThrownError "callback failed"))],
     inr tt).
Proof.
  apply (throwing_callback_is_called_again sampleLib excludingOptions "v4"
           distCompilation indexPage indexPage throwingOnResult []
           (ThrownError "callback failed"));
    reflexivity.
Defined.

(** Lines 125-152.  The listener pushes the ordering error, and then
    registers nothing, exactly when the compilation has no
    [htmlWebpackPluginAfterHtmlProcessing] hook and the module passed in
    the options answers [getHooks] with hooks that hold no [beforeEmit];
    the compilation is then as before but for that one more error. *)
Theorem ordering_error_pushed_iff (L : Lib) (this : Options)
    (compilation compilation' : Compilation) :
  compilationTap L this compilation = inr (ErrorPushed compilation') <->
  hooks_htmlWebpackPluginAfterHtmlProcessing compilation = None /\
  (exists module hooks,
     HtmlWebpackPlugin this = Some module /\
     getHooks module compilation = inr hooks /\
     beforeEmit hooks = None) /\
  compilation' = push_error compilation orderingError.
Proof.
  unfold compilationTap, findHook.
  destruct (hooks_htmlWebpackPluginAfterHtmlProcessing compilation) as [hook|].
  { split; [discriminate|]. intros [H _]. discriminate. }
  destruct (HtmlWebpackPlugin this) as [module|].
  2: { split; [discriminate|]. intros [_ [[m [hs [H _]]] _]]. discriminate. }
  destruct (getHooks module compilation) as [e|hooks] eqn:Hg.
  { split; [discriminate|]. intros [_ [[m [hs [Hm [Hg' _]]]] _]].
    injection Hm as <-. congruence. }
  destruct (beforeEmit hooks) as [hook|] eqn:Hb.
  - split; [discriminate|]. intros [_ [[m [hs [Hm [Hg' Hb']]]] _]].
    injection Hm as <-. rewrite Hg in Hg'. injection Hg' as <-. congruence.
  - split.
    + intros H. injection H as <-. repeat split. exists module, hooks. auto.
    + intros [_ [_ ->]]. reflexivity.
Qed.

Lemma every_not_test_true (regexes : list RegExp) (file : string)
    (written : LastIndexes) (regex : RegExp) :
  fst (every_not_test regexes file written) = true ->
  In regex regexes ->
  exists w, fst (test regex file w) = false.
Proof.
  revert written. induction regexes as [|r rest IH]; intros written H Hin;
    [destruct Hin|].
  simpl in H. destruct (test r file written) as [found written'] eqn:Ht.
  destruct found; simpl in H; [discriminate|].
  destruct Hin as [<-|Hin].
  - exists written. now rewrite Ht.
  - eapply IH; eassumption.
Qed.

(** Lines 63-73.  The deny-list has the last word: a file that one of its
    patterns matches, that pattern having neither the [g] nor the [y]
    flag, is not selected, whatever the allow-list and the other patterns
    of the deny-list are. *)
Theorem denied_file_is_never_selected (this : Options) (htmlChunks : list Chunk)
    (regexes : list RegExp) (regex : RegExp) (file : string) :
  fileBlacklist this = Some regexes ->
  In regex regexes ->
  global regex = false ->
  sticky regex = false ->
  matches regex file = true ->
  ~ In file (sortedFilteredFiles this htmlChunks).
Proof.
  intros Hb Hin Hg Hy Hm Hsel.
  unfold sortedFilteredFiles in Hsel.
  apply (Permutation_in _ (Array_sort_perm _)) in Hsel.
  apply filteredFiles_in in Hsel. destruct Hsel as [_ [_ [w Hp]]].
  unfold passesBlacklist in Hp. rewrite Hb in Hp.
  destruct (every_not_test_true _ _ _ regex Hp Hin) as [w' Ht].
  rewrite test_flagless in Ht by (now rewrite Hg, Hy).
  simpl in Ht. congruence.
Qed.

Lemma denied_file_is_never_selected_witness :
  ~ In "app.css" (sortedFilteredFiles allowedAndDeniedOptions [appChunk]).
Proof.
  apply (denied_file_is_never_selected allowedAndDeniedOptions [appChunk]
           [appCssPattern] appCssPattern "app.css").
  - reflexivity.
  - now left.
  - reflexivity.
  - reflexivity.
  - reflexivity.
Defined.
